(** * rosetta-sdk-go: response validation (asserter), retrying fetcher and
      the generated NetworkStatus client call.

    The Go packages are embedded shallowly, one Rocq module per package:
    [types] (the wire entities), [errors] and [fmt] (the few standard
    library calls the code makes), [asserter], [fetcher] and [client]. *)

From Stdlib Require Import ZArith Bool List Lia.
From stdpp Require Import gmap strings list fin_maps.

Local Open Scope Z_scope.
Local Open Scope string_scope.

(** ** Package [types] *)

Module types.

(** A value stored under a key of a [map[string]interface{}] once the JSON
    decoder has filled it: a string, a number, a boolean or null. *)
Inductive MetadataValue : Type :=
| MString (s : string)
| MNumber (z : Z)
| MBool (b : bool)
| MNull.

#[global] Instance MetadataValue_eq_dec : EqDecision MetadataValue.
Proof. solve_decision. Defined.

(** [*map[string]interface{}]: an optional pointer to a map. *)
Abbreviation MetadataMap := (option (gmap string MetadataValue)).

Module SubNetworkIdentifier.
Record t : Type := mk { Network : string; Metadata : MetadataMap }.
#[global] Instance SubNetworkIdentifier_eq_dec : EqDecision t.
Proof. solve_decision. Defined.
End SubNetworkIdentifier.

Module NetworkIdentifier.
Record t : Type := mk {
  Blockchain : string;
  Network : string;
  SubNetworkIdentifier : option SubNetworkIdentifier.t
}.
#[global] Instance NetworkIdentifier_eq_dec : EqDecision t.
Proof. solve_decision. Defined.
End NetworkIdentifier.

Module SubAccountIdentifier.
Record t : Type := mk { Address : string; Metadata : MetadataMap }.
#[global] Instance SubAccountIdentifier_eq_dec : EqDecision t.
Proof. solve_decision. Defined.
End SubAccountIdentifier.

Module AccountIdentifier.
Record t : Type := mk {
  Address : string;
  SubAccount : option SubAccountIdentifier.t
}.
#[global] Instance AccountIdentifier_eq_dec : EqDecision t.
Proof. solve_decision. Defined.
End AccountIdentifier.

Module Currency.
Record t : Type := mk {
  Symbol : string;
  Decimals : Z;
  Metadata : MetadataMap
}.
#[global] Instance Currency_eq_dec : EqDecision t.
Proof. solve_decision. Defined.
End Currency.

Module Amount.
Record t : Type := mk { Value : string; Currency : Currency.t }.
#[global] Instance Amount_eq_dec : EqDecision t.
Proof. solve_decision. Defined.
End Amount.

Module Balance.
Record t : Type := mk {
  AccountIdentifier : AccountIdentifier.t;
  Amounts : list Amount.t
}.
#[global] Instance Balance_eq_dec : EqDecision t.
Proof. solve_decision. Defined.
End Balance.

Module BlockIdentifier.
Record t : Type := mk { Index : Z; Hash : string }.
#[global] Instance BlockIdentifier_eq_dec : EqDecision t.
Proof. solve_decision. Defined.
End BlockIdentifier.

Module Version.
Record t : Type := mk {
  RosettaVersion : string;
  NodeVersion : string;
  MiddlewareVersion : option string
}.
#[global] Instance Version_eq_dec : EqDecision t.
Proof. solve_decision. Defined.
End Version.

Module OperationStatus.
Record t : Type := mk { Status : string; Successful : bool }.
#[global] Instance OperationStatus_eq_dec : EqDecision t.
Proof. solve_decision. Defined.
End OperationStatus.

Module Options.
Record t : Type := mk {
  OperationStatuses : list OperationStatus.t;
  OperationTypes : list string
}.
#[global] Instance Options_eq_dec : EqDecision t.
Proof. solve_decision. Defined.
End Options.

(** [types.Error]: the structured error a node answers with. *)
Module Error.
Record t : Type := mk { Code : Z; Message : string; Retriable : bool }.
#[global] Instance Error_eq_dec : EqDecision t.
Proof. solve_decision. Defined.
End Error.

Module AccountBalanceRequest.
Record t : Type := mk {
  NetworkIdentifier : option NetworkIdentifier.t;
  AccountIdentifier : option AccountIdentifier.t
}.
#[global] Instance AccountBalanceRequest_eq_dec : EqDecision t.
Proof. solve_decision. Defined.
End AccountBalanceRequest.

Module AccountBalanceResponse.
Record t : Type := mk {
  BlockIdentifier : option BlockIdentifier.t;
  Balances : list Balance.t
}.
#[global] Instance AccountBalanceResponse_eq_dec : EqDecision t.
Proof. solve_decision. Defined.
End AccountBalanceResponse.

End types.

(** ** Go's [error] values *)

Module go.

(** An operand handed to a formatting verb. *)
Inductive fmt_arg : Type :=
| ArgCurrency (c : types.Currency.t)
| ArgAccountIdentifier (a : types.AccountIdentifier.t)
| ArgError (e : types.Error.t).

#[global] Instance fmt_arg_eq_dec : EqDecision fmt_arg.
Proof. solve_decision. Defined.

(** The error values that occur: [errors.New text], [fmt.Errorf] with a
    [%+v] verb (kept as format and operands, the rendering of [%+v] is
    not needed), and an error that wraps a cause (what [fmt.Errorf] with
    [%w] builds; the code under study never does, a collaborator may). *)
Inductive error : Type :=
| errorString (text : string)
| formatted (format : string) (args : list fmt_arg)
| wrapError (msg : string) (cause : error).

#[global] Instance error_eq_dec : EqDecision error.
Proof. solve_decision. Defined.

End go.

Module errors.
Definition New (text : string) : go.error := go.errorString text.

(** [errors.Unwrap]: only a wrapping error has a cause. *)
Definition Unwrap (err : go.error) : option go.error :=
  match err with
  | go.wrapError _ cause => Some cause
  | _ => None
  end.
End errors.

Module fmt.
Definition Errorf (format : string) (args : list go.fmt_arg) : go.error :=
  go.formatted format args.
End fmt.

Module strings.
(** [strings.HasPrefix] and [strings.Contains]. *)
Fixpoint HasPrefix (s prefix : string) : bool :=
  match prefix, s with
  | EmptyString, _ => true
  | String c p, String d r => bool_decide (c = d) && HasPrefix r p
  | String _ _, EmptyString => false
  end.

Fixpoint Contains (s substr : string) : bool :=
  HasPrefix s substr
  || match s with
     | EmptyString => false
     | String _ r => Contains r substr
     end.
End strings.


(** ** Package [asserter]

    Of this package the sources hold the tests only ([account_test.go],
    [network_test.go]); the checks themselves are modelled from the
    specification, with the error texts the tests compare against. *)

Module asserter.

Import go.

(** Modelled from the spec: the failure IdentifierNil of the missing
    asserter sources, an [errors.New] with the text the tests compare
    against ("NetworkIdentifier is nil", "version is nil", "options is
    nil"). *)
Definition IdentifierNil (what : string) : error :=
  errors.New (what +:+ " is nil").

(** Modelled from the spec: the failure FieldMissing of the missing
    asserter sources, with the text of the tests ("Version.NodeVersion is
    missing", "Account.Address is missing", ...). *)
Definition FieldMissing (field : string) : error :=
  errors.New (field +:+ " is missing").

(** Modelled from the spec: the failure Empty of the missing
    [asserter/network.go], with the text of TestNetworkOptions. *)
Definition Empty (field : string) : error :=
  errors.New ("no " +:+ field +:+ " found").

(** Modelled from the spec: the failure NoSuccessfulStatus of the missing
    [asserter/network.go], with the text of TestNetworkOptions. *)
Definition NoSuccessfulStatus : error :=
  errors.New "no successful Options.OperationStatuses found".

(** Modelled from the spec: the failure of a negative block index of the
    missing [asserter/block.go]; no test under the sources gives its text,
    it is worded like "Error.Code is negative" of TestError. *)
Definition NegativeIndex : error :=
  errors.New "BlockIdentifier.Index is negative".

(** Modelled from the spec: the failure DuplicateCurrencyInBalance of the
    missing [asserter/account.go], built as TestAccoutBalance builds it. *)
Definition DuplicateCurrencyInBalance (c : types.Currency.t) : error :=
  fmt.Errorf "currency %+v used in balance multiple times" [ArgCurrency c].

(** Modelled from the spec: the failure DuplicateAccountIdentifier of the
    missing [asserter/account.go], built as TestAccoutBalance builds it. *)
Definition DuplicateAccountIdentifier (a : types.AccountIdentifier.t) : error :=
  fmt.Errorf "account identifier %+v used in balance multiple times"
    [ArgAccountIdentifier a].

(** *** Structural equality *)

(** Modelled from the spec: the deep equality of two metadata maps, which
    the missing [asserter/account.go] obtains from its comparison of two
    entities: the same key set, and under each key an equal value. *)
Definition mapDeepEqual (m1 m2 : gmap string types.MetadataValue) : bool :=
  bool_decide (dom m1 = dom m2)
  && forallb (fun kv => bool_decide (m2 !! kv.1 = Some kv.2)) (map_to_list m1).

(** Modelled from the spec: deep equality of the optional metadata slot of
    the missing [asserter/account.go]; an absent map equals only an absent
    map, it is not the empty map. *)
Definition metadataDeepEqual (a b : types.MetadataMap) : bool :=
  match a, b with
  | None, None => true
  | Some m1, Some m2 => mapDeepEqual m1 m2
  | _, _ => false
  end.

(** Modelled from the spec: structural equality of two currencies (symbol,
    decimals, metadata), used by [containsCurrency] of the missing
    [asserter/account.go]. *)
Definition currencyDeepEqual (a b : types.Currency.t) : bool :=
  bool_decide (types.Currency.Symbol a = types.Currency.Symbol b)
  && Z.eqb (types.Currency.Decimals a) (types.Currency.Decimals b)
  && metadataDeepEqual (types.Currency.Metadata a) (types.Currency.Metadata b).

(** Modelled from the spec: structural equality of two optional
    sub-accounts (address, metadata) of the missing [asserter/account.go]. *)
Definition subAccountDeepEqual (a b : option types.SubAccountIdentifier.t) : bool :=
  match a, b with
  | None, None => true
  | Some x, Some y =>
      bool_decide (types.SubAccountIdentifier.Address x
                   = types.SubAccountIdentifier.Address y)
      && metadataDeepEqual (types.SubAccountIdentifier.Metadata x)
                           (types.SubAccountIdentifier.Metadata y)
  | _, _ => false
  end.

(** Modelled from the spec: structural equality of two account identifiers
    (address, sub-account with its metadata), used by
    [containsAccountIdentifier] of the missing [asserter/account.go]. *)
Definition accountIdentifierDeepEqual (a b : types.AccountIdentifier.t) : bool :=
  bool_decide (types.AccountIdentifier.Address a = types.AccountIdentifier.Address b)
  && subAccountDeepEqual (types.AccountIdentifier.SubAccount a)
                         (types.AccountIdentifier.SubAccount b).

(** Modelled from the spec: [containsCurrency] of the missing
    [asserter/account.go]: does the list hold a currency structurally equal
    to the given one. *)
Definition containsCurrency
    (currencies : list types.Currency.t) (currency : types.Currency.t) : bool :=
  existsb (fun curr => currencyDeepEqual curr currency) currencies.

(** Modelled from the spec: [containsAccountIdentifier] of the missing
    [asserter/account.go]. *)
Definition containsAccountIdentifier
    (identifiers : list types.AccountIdentifier.t)
    (identifier : types.AccountIdentifier.t) : bool :=
  existsb (fun acct => accountIdentifierDeepEqual acct identifier) identifiers.

(** *** Network checks *)

(** Modelled from the spec: the sub-network part of [NetworkIdentifier] of
    the missing [asserter/network.go]: a present sub-network needs a
    network name. *)
Definition SubNetworkIdentifier
    (subNetworkIdentifier : option types.SubNetworkIdentifier.t) : option error :=
  match subNetworkIdentifier with
  | None => None
  | Some s =>
      if bool_decide (types.SubNetworkIdentifier.Network s = "")
      then Some (FieldMissing "NetworkIdentifier.SubNetworkIdentifier.Network")
      else None
  end.

(** Modelled from the spec: [NetworkIdentifier] of the missing
    [asserter/network.go], as the specification words it (section 4.1):
    [IdentifierNil] for an absent input, [FieldMissing] for an empty
    blockchain or network, then the sub-network. *)
Definition NetworkIdentifier_spec
    (network : option types.NetworkIdentifier.t) : option error :=
  match network with
  | None => Some (IdentifierNil "NetworkIdentifier")
  | Some n =>
      if bool_decide (types.NetworkIdentifier.Blockchain n = "")
      then Some (FieldMissing "NetworkIdentifier.Blockchain")
      else if bool_decide (types.NetworkIdentifier.Network n = "")
      then Some (FieldMissing "NetworkIdentifier.Network")
      else SubNetworkIdentifier (types.NetworkIdentifier.SubNetworkIdentifier n)
  end.

(** Modelled from the spec: [NetworkIdentifier] of the missing
    [asserter/network.go], with the one answer the sources fix differently:
    [TestNetworkIdentifier] (network_test.go, case "invalid blockchain")
    expects the error "NetworkIdentifier is nil" for a present identifier
    whose blockchain is empty, so the empty blockchain shares the guard of
    the absent input. *)
Definition NetworkIdentifier
    (network : option types.NetworkIdentifier.t) : option error :=
  match network with
  | None => Some (IdentifierNil "NetworkIdentifier")
  | Some n =>
      if bool_decide (types.NetworkIdentifier.Blockchain n = "")
      then Some (IdentifierNil "NetworkIdentifier")
      else if bool_decide (types.NetworkIdentifier.Network n = "")
      then Some (FieldMissing "NetworkIdentifier.Network")
      else SubNetworkIdentifier (types.NetworkIdentifier.SubNetworkIdentifier n)
  end.

(** Modelled from the spec: [Version] of the missing [asserter/network.go].
    The rosetta version is not looked at (test case "old RosettaVersion"). *)
Definition Version (version : option types.Version.t) : option error :=
  match version with
  | None => Some (IdentifierNil "version")
  | Some v =>
      if bool_decide (types.Version.NodeVersion v = "")
      then Some (FieldMissing "Version.NodeVersion")
      else match types.Version.MiddlewareVersion v with
           | Some m =>
               if bool_decide (m = "")
               then Some (FieldMissing "Version.MiddlewareVersion")
               else None
           | None => None
           end
  end.

(** Modelled from the spec: [NetworkOptions] (the specification's
    CheckOptions) of the missing [asserter/network.go]. *)
Definition NetworkOptions (options : option types.Options.t) : option error :=
  match options with
  | None => Some (IdentifierNil "options")
  | Some o =>
      match types.Options.OperationStatuses o with
      | [] => Some (Empty "Options.OperationStatuses")
      | _ :: _ =>
          if negb (existsb types.OperationStatus.Successful
                     (types.Options.OperationStatuses o))
          then Some NoSuccessfulStatus
          else match types.Options.OperationTypes o with
               | [] => Some (Empty "Options.OperationTypes")
               | _ :: _ => None
               end
      end
  end.

(** *** Account checks *)

(** Modelled from the spec: the block identifier check of the missing
    [asserter/block.go]: a hash and a non-negative index. The specification
    names both checks without ordering them; the hash is looked at first.
    An absent block fails like the other absent inputs. *)
Definition BlockIdentifier
    (blockIdentifier : option types.BlockIdentifier.t) : option error :=
  match blockIdentifier with
  | None => Some (IdentifierNil "BlockIdentifier")
  | Some b =>
      if bool_decide (types.BlockIdentifier.Hash b = "")
      then Some (FieldMissing "BlockIdentifier.Hash")
      else if Z.ltb (types.BlockIdentifier.Index b) 0
      then Some NegativeIndex
      else None
  end.

(** Modelled from the spec: the account identifier check of the missing
    [asserter/account.go]: an address, and an address in a present
    sub-account. *)
Definition AccountIdentifier (account : types.AccountIdentifier.t) : option error :=
  if bool_decide (types.AccountIdentifier.Address account = "")
  then Some (FieldMissing "Account.Address")
  else match types.AccountIdentifier.SubAccount account with
       | Some s =>
           if bool_decide (types.SubAccountIdentifier.Address s = "")
           then Some (FieldMissing "Account.SubAccount.Address")
           else None
       | None => None
       end.

(** Modelled from the spec: the scan of one balance's amounts of the
    missing [asserter/account.go]: the first amount whose currency was
    already seen fails. *)
Fixpoint assertBalanceAmounts
    (currencies : list types.Currency.t) (amounts : list types.Amount.t)
    : option error :=
  match amounts with
  | [] => None
  | amount :: rest =>
      if containsCurrency currencies (types.Amount.Currency amount)
      then Some (DuplicateCurrencyInBalance (types.Amount.Currency amount))
      else assertBalanceAmounts
             (currencies ++ [types.Amount.Currency amount]) rest
  end.

(** Modelled from the spec: the per-entry pass of [AccountBalance] of the
    missing [asserter/account.go]: each entry in order, its account
    identifier first, then its amounts. *)
Fixpoint assertBalanceEntries (balances : list types.Balance.t) : option error :=
  match balances with
  | [] => None
  | balance :: rest =>
      match AccountIdentifier (types.Balance.AccountIdentifier balance) with
      | Some err => Some err
      | None =>
          match assertBalanceAmounts [] (types.Balance.Amounts balance) with
          | Some err => Some err
          | None => assertBalanceEntries rest
          end
      end
  end.

(** Modelled from the spec: the final pass of [AccountBalance] of the
    missing [asserter/account.go] over the whole sequence: the first entry
    whose account identifier was already seen fails. *)
Fixpoint assertUniqueAccounts
    (accounts : list types.AccountIdentifier.t) (balances : list types.Balance.t)
    : option error :=
  match balances with
  | [] => None
  | balance :: rest =>
      if containsAccountIdentifier accounts (types.Balance.AccountIdentifier balance)
      then Some (DuplicateAccountIdentifier (types.Balance.AccountIdentifier balance))
      else assertUniqueAccounts
             (accounts ++ [types.Balance.AccountIdentifier balance]) rest
  end.

(** Modelled from the spec: [AccountBalance] of the missing
    [asserter/account.go]: block, then the entries, then the duplicate
    accounts. *)
Definition AccountBalance
    (block : option types.BlockIdentifier.t) (balances : list types.Balance.t)
    : option error :=
  match BlockIdentifier block with
  | Some err => Some err
  | None =>
      match assertBalanceEntries balances with
      | Some err => Some err
      | None => assertUniqueAccounts [] balances
      end
  end.

End asserter.


(** ** The tests of package [asserter]

    Each table is the one of the test function of the same name; a test
    passes when the checked function answers every case as listed
    ([assert.Equal]). The runner takes the function under test as an
    argument. *)

Module asserter_test.

Import go.

Definition metadata (value : string) : types.MetadataMap :=
  Some {[ "blah" := types.MString value ]}.

Definition BTC (decimals : Z) (m : types.MetadataMap) : types.Currency.t :=
  types.Currency.mk "BTC" decimals m.

(** account_test.go, TestContainsCurrency *)
Definition TestContainsCurrency_tests
    : list (string * list types.Currency.t * types.Currency.t * bool) :=
  [ ("simple contains", [BTC 8 None], BTC 8 None, true);
    ("complex contains", [BTC 8 (metadata "hello")], BTC 8 (metadata "hello"), true);
    ("empty", [], BTC 8 None, false);
    ("symbol mismatch", [types.Currency.mk "ERX" 8 None], BTC 6 None, false);
    ("decimal mismatch", [BTC 8 None], BTC 6 None, false);
    ("metadata mismatch", [BTC 8 (metadata "hello")], BTC 8 (metadata "bye"), false) ].

Definition TestContainsCurrency
    (containsCurrency : list types.Currency.t -> types.Currency.t -> bool) : bool :=
  forallb (fun test => let '(_, currencies, currency, contains) := test in
                       bool_decide (contains = containsCurrency currencies currency))
          TestContainsCurrency_tests.

Definition acct (address : string) (sub : option types.SubAccountIdentifier.t)
    : types.AccountIdentifier.t :=
  types.AccountIdentifier.mk address sub.

Definition subacct (address value : string) : option types.SubAccountIdentifier.t :=
  Some (types.SubAccountIdentifier.mk address (metadata value)).

(** account_test.go, TestContainsAccountIdentifier *)
Definition TestContainsAccountIdentifier_tests
    : list (string * list types.AccountIdentifier.t * types.AccountIdentifier.t * bool) :=
  [ ("simple contains", [acct "acct1" None], acct "acct1" None, true);
    ("complex contains", [acct "acct1" (subacct "subacct1" "hello")],
       acct "acct1" (subacct "subacct1" "hello"), true);
    ("simple mismatch", [acct "acct1" None], acct "acct2" None, false);
    ("empty", [], acct "acct2" None, false);
    ("subaccount mismatch", [acct "acct1" (subacct "subacct2" "hello")],
       acct "acct1" (subacct "subacct1" "hello"), false);
    ("metadata mismatch", [acct "acct1" (subacct "subacct1" "hello")],
       acct "acct1" (subacct "subacct1" "bye"), false) ].

Definition TestContainsAccountIdentifier
    (containsAccountIdentifier :
       list types.AccountIdentifier.t -> types.AccountIdentifier.t -> bool) : bool :=
  forallb (fun test => let '(_, identifiers, identifier, contains) := test in
                       bool_decide (contains = containsAccountIdentifier identifiers identifier))
          TestContainsAccountIdentifier_tests.

Definition validBlock : option types.BlockIdentifier.t :=
  Some (types.BlockIdentifier.mk 1000 "jsakdl").

Definition invalidBlock : option types.BlockIdentifier.t :=
  Some (types.BlockIdentifier.mk 1 "").

Definition validIdentifier : types.AccountIdentifier.t := acct "acct1" None.

Definition invalidIdentifier : types.AccountIdentifier.t := acct "" None.

Definition validAmount : types.Amount.t := types.Amount.mk "100" (BTC 8 None).

(** account_test.go, TestAccoutBalance *)
Definition TestAccoutBalance_tests
    : list (string * option types.BlockIdentifier.t * list types.Balance.t * option error) :=
  [ ("simple balance", validBlock,
       [types.Balance.mk validIdentifier [validAmount]], None);
    ("invalid block", invalidBlock,
       [types.Balance.mk validIdentifier [validAmount]],
       Some (errors.New "BlockIdentifier.Hash is missing"));
    ("invalid account identifier", validBlock,
       [types.Balance.mk invalidIdentifier [validAmount]],
       Some (errors.New "Account.Address is missing"));
    ("duplicate currency", validBlock,
       [types.Balance.mk validIdentifier [validAmount; validAmount]],
       Some (fmt.Errorf "currency %+v used in balance multiple times"
               [ArgCurrency (types.Amount.Currency validAmount)]));
    ("duplicate identifier", validBlock,
       [types.Balance.mk validIdentifier [validAmount];
        types.Balance.mk validIdentifier [validAmount]],
       Some (fmt.Errorf "account identifier %+v used in balance multiple times"
               [ArgAccountIdentifier validIdentifier])) ].

Definition TestAccoutBalance
    (AccountBalance :
       option types.BlockIdentifier.t -> list types.Balance.t -> option error) : bool :=
  forallb (fun test => let '(_, block, balances, err) := test in
                       bool_decide (err = AccountBalance block balances))
          TestAccoutBalance_tests.

(** network_test.go, TestNetworkIdentifier *)
Definition TestNetworkIdentifier_tests
    : list (string * option types.NetworkIdentifier.t * option error) :=
  [ ("valid network",
       Some (types.NetworkIdentifier.mk "bitcoin" "mainnet" None), None);
    ("nil network", None, Some (errors.New "NetworkIdentifier is nil"));
    ("invalid blockchain",
       Some (types.NetworkIdentifier.mk "" "mainnet" None),
       Some (errors.New "NetworkIdentifier is nil"));
    ("invalid network",
       Some (types.NetworkIdentifier.mk "bitcoin" "" None),
       Some (errors.New "NetworkIdentifier.Network is missing"));
    ("valid sub_network",
       Some (types.NetworkIdentifier.mk "bitcoin" "mainnet"
               (Some (types.SubNetworkIdentifier.mk "shard 1" None))), None);
    ("invalid sub_network",
       Some (types.NetworkIdentifier.mk "bitcoin" "mainnet"
               (Some (types.SubNetworkIdentifier.mk "" None))),
       Some (errors.New "NetworkIdentifier.SubNetworkIdentifier.Network is missing")) ].

Definition TestNetworkIdentifier
    (NetworkIdentifier : option types.NetworkIdentifier.t -> option error) : bool :=
  forallb (fun test => let '(_, network, err) := test in
                       bool_decide (err = NetworkIdentifier network))
          TestNetworkIdentifier_tests.

Definition middlewareVersion : string := "1.2".
Definition invalidMiddlewareVersion : string := "".
Definition validRosettaVersion : string := "1.2.4".

(** network_test.go, TestVersion *)
Definition TestVersion_tests : list (string * option types.Version.t * option error) :=
  [ ("valid version",
       Some (types.Version.mk validRosettaVersion "1.0" None), None);
    ("valid version with middleware",
       Some (types.Version.mk validRosettaVersion "1.0" (Some middlewareVersion)), None);
    ("old RosettaVersion", Some (types.Version.mk "1.2.2" "1.0" None), None);
    ("nil version", None, Some (errors.New "version is nil"));
    ("invalid NodeVersion",
       Some (types.Version.mk validRosettaVersion "" None),
       Some (errors.New "Version.NodeVersion is missing"));
    ("invalid MiddlewareVersion",
       Some (types.Version.mk validRosettaVersion "1.0" (Some invalidMiddlewareVersion)),
       Some (errors.New "Version.MiddlewareVersion is missing")) ].

Definition TestVersion (Version : option types.Version.t -> option error) : bool :=
  forallb (fun test => let '(_, version, err) := test in
                       bool_decide (err = Version version))
          TestVersion_tests.

Definition operationStatuses : list types.OperationStatus.t :=
  [ types.OperationStatus.mk "SUCCESS" true;
    types.OperationStatus.mk "FAILURE" false ].

Definition operationTypes : list string := [ "PAYMENT" ].

(** network_test.go, TestNetworkOptions *)
Definition TestNetworkOptions_tests
    : list (string * option types.Options.t * option error) :=
  [ ("valid options",
       Some (types.Options.mk operationStatuses operationTypes), None);
    ("nil options", None, Some (errors.New "options is nil"));
    ("no OperationStatuses",
       Some (types.Options.mk [] operationTypes),
       Some (errors.New "no Options.OperationStatuses found"));
    ("no successful OperationStatuses",
       Some (types.Options.mk [types.OperationStatus.mk "FAILURE" false] operationTypes),
       Some (errors.New "no successful Options.OperationStatuses found"));
    ("no OperationTypes",
       Some (types.Options.mk operationStatuses []),
       Some (errors.New "no Options.OperationTypes found")) ].

Definition TestNetworkOptions
    (NetworkOptions : option types.Options.t -> option error) : bool :=
  forallb (fun test => let '(_, networkOptions, err) := test in
                       bool_decide (err = NetworkOptions networkOptions))
          TestNetworkOptions_tests.

End asserter_test.


(** ** Package [fetcher]: account.go *)

Module fetcher.

Import go.

(** The collaborators of account.go that the sources do not hold: the
    cancellation state of [ctx], the generated client
    [rosettaClient.AccountAPI], and the two helpers [backoffRetries] and
    [tryAgain] with the back-off object they share. What the context, the
    node and the back-off (clock, jitter) answer may change from one call to
    the next: each answer is a function of the logical time, the number of
    interactions made so far. *)
Record Env : Type := {
  BackOff : Type;
  backoffRetries : Z -> Z -> BackOff;
  tryAgain : nat -> string -> BackOff -> error -> bool * BackOff;
  ctx_Err : nat -> option error;
  AccountAPI_AccountBalance :
    nat -> types.AccountBalanceRequest.t ->
    option types.AccountBalanceResponse.t * option types.Error.t * option error
}.

(** The interactions of a call with its collaborators, in order. *)
Inductive event : Type :=
| CtxErr
| TransportCall (request : types.AccountBalanceRequest.t)
| TryAgain (fetchMsg : string) (err : error).

(** The run-time panic of the code: a nil pointer is dereferenced; the
    pointer is named. *)
Inductive panic_value : Type :=
| nil_pointer_dereference (pointer : string).

(** A Go call returns or panics. *)
Inductive outcome (A : Type) : Type :=
| Returns (a : A)
| Panics (v : panic_value).

Arguments Returns {A} a.
Arguments Panics {A} v.

(** Computations that extend the trace of interactions and may panic. *)
Definition M (A : Type) : Type := list event -> outcome A * list event.

Definition ret {A} (a : A) : M A := fun tr => (Returns a, tr).

Definition bind {A B} (c : M A) (k : A -> M B) : M B :=
  fun tr =>
    match c tr with
    | (Returns a, tr') => k a tr'
    | (Panics v, tr') => (Panics v, tr')
    end.

Definition panic {A} (v : panic_value) : M A := fun tr => (Panics v, tr).

Declare Scope go_scope.
Delimit Scope go_scope with go.
Notation "'let*' x ':=' c 'in' k" := (bind c (fun x => k))
  (at level 10, x pattern, c at level 100, k at level 200) : go_scope.

(** [ctx.Err()] *)
Definition ctxErr (E : Env) : M (option error) :=
  fun tr => (Returns (ctx_Err E (List.length tr)), (tr ++ [CtxErr])%list).

(** [f.rosettaClient.AccountAPI.AccountBalance(ctx, request)] *)
Definition callAccountBalance (E : Env) (request : types.AccountBalanceRequest.t)
    : M (option types.AccountBalanceResponse.t * option types.Error.t * option error) :=
  fun tr => (Returns (AccountAPI_AccountBalance E (List.length tr) request),
             (tr ++ [TransportCall request])%list).

(** [tryAgain(fetchMsg, backoff, err)] *)
Definition callTryAgain (E : Env) (fetchMsg : string) (b : BackOff E) (err : error)
    : M (bool * BackOff E) :=
  fun tr => (Returns (tryAgain E (List.length tr) fetchMsg b err),
             (tr ++ [TryAgain fetchMsg err])%list).

(** The three results of the fetcher's calls; a nil slice is the empty list. *)
Definition result : Type :=
  option types.BlockIdentifier.t * list types.Balance.t * option error.

(** [UnsafeAccountBalance]: the response is dereferenced once [err] is nil. *)
Definition UnsafeAccountBalance (E : Env)
    (network : option types.NetworkIdentifier.t)
    (account : option types.AccountIdentifier.t) : M result :=
  (let* (balance, _, err) :=
     callAccountBalance E (types.AccountBalanceRequest.mk network account) in
   match err with
   | Some e => ret (None, [], Some e)
   | None =>
       match balance with
       | None => panic (nil_pointer_dereference "balance")
       | Some b =>
           ret (types.AccountBalanceResponse.BlockIdentifier b,
                types.AccountBalanceResponse.Balances b, None)
       end
   end)%go.

(** [AccountBalance]: the unvalidated call, then the asserter. *)
Definition AccountBalance (E : Env)
    (network : option types.NetworkIdentifier.t)
    (account : option types.AccountIdentifier.t) : M result :=
  (let* (block, balances, err) := UnsafeAccountBalance E network account in
   match err with
   | Some e => ret (None, [], Some e)
   | None =>
       match asserter.AccountBalance block balances with
       | Some e => ret (None, [], Some e)
       | None => ret (block, balances, None)
       end
   end)%go.

(** How one turn of the [for] loop ends. *)
Inductive control (E : Env) : Type :=
| Return (r : result)
| Break
| Continue (b : BackOff E).

Arguments Return {E} r.
Arguments Break {E}.
Arguments Continue {E} b.

(** One turn of the loop of [AccountBalanceRetry], its condition included.
    The operands of [tryAgain] are evaluated before the call:
    [account.Address] dereferences [account]. *)
Definition AccountBalanceRetry_body (E : Env)
    (network : option types.NetworkIdentifier.t)
    (account : option types.AccountIdentifier.t)
    (backoff : BackOff E) : M (control E) :=
  (let* cancelled := ctxErr E in
   match cancelled with
   | Some _ => ret Break
   | None =>
       let* (block, balances, err) := AccountBalance E network account in
       match err with
       | None => ret (Return (block, balances, None))
       | Some e =>
           match account with
           | None => panic (nil_pointer_dereference "account")
           | Some a =>
               let* (again, backoff') :=
                  callTryAgain E ("account " +:+ types.AccountIdentifier.Address a)
                    backoff e in
               if again then ret (Continue backoff') else ret Break
           end
       end
   end)%go.

(** The statement after the loop. *)
Definition exhausted : result :=
  (None, [], Some (errors.New "exhausted retries for account")).

(** The loop; [None] when [fuel] turns do not end it. *)
Fixpoint AccountBalanceRetry_loop (E : Env) (fuel : nat)
    (network : option types.NetworkIdentifier.t)
    (account : option types.AccountIdentifier.t)
    (backoff : BackOff E) (tr : list event)
    : option (outcome result * list event) :=
  match fuel with
  | O => None
  | S fuel' =>
      match AccountBalanceRetry_body E network account backoff tr with
      | (Panics v, tr') => Some (Panics v, tr')
      | (Returns (Return r), tr') => Some (Returns r, tr')
      | (Returns Break, tr') => Some (Returns exhausted, tr')
      | (Returns (Continue backoff'), tr') =>
          AccountBalanceRetry_loop E fuel' network account backoff' tr'
      end
  end.

(** [AccountBalanceRetry] *)
Definition AccountBalanceRetry (E : Env) (fuel : nat)
    (network : option types.NetworkIdentifier.t)
    (account : option types.AccountIdentifier.t)
    (maxElapsedTime : Z) (maxRetries : Z) (tr : list event)
    : option (outcome result * list event) :=
  AccountBalanceRetry_loop E fuel network account
    (backoffRetries E maxElapsedTime maxRetries) tr.

(** The transport calls of a trace. *)
Definition transportCalls (tr : list event) : list types.AccountBalanceRequest.t :=
  omap (fun ev => match ev with TransportCall r => Some r | _ => None end) tr.

End fetcher.


(** ** Scenarios for the fetcher

    Collaborators for concrete runs: a back-off that only counts the
    retries left, a node that refuses every connection, and a context that
    is cancelled from the start or never. *)

Module fetcher_scenarios.

Import go fetcher.

Definition countingTryAgain (_ : nat) (_ : string) (left : nat) (_ : error)
    : bool * nat :=
  match left with
  | O => (false, O)
  | S left' => (true, left')
  end.

Definition refused : error := errors.New "connection refused".

Definition refusing (_ : nat) (_ : types.AccountBalanceRequest.t)
    : option types.AccountBalanceResponse.t * option types.Error.t * option error :=
  (None, None, Some refused).

Definition cancelledFromStart : Env := {|
  BackOff := nat;
  backoffRetries := fun _ maxRetries => Z.to_nat maxRetries;
  tryAgain := countingTryAgain;
  ctx_Err := fun _ => Some (errors.New "context canceled");
  AccountAPI_AccountBalance := refusing
|}.

Definition neverCancelled : Env := {|
  BackOff := nat;
  backoffRetries := fun _ maxRetries => Z.to_nat maxRetries;
  tryAgain := countingTryAgain;
  ctx_Err := fun _ => None;
  AccountAPI_AccountBalance := refusing
|}.

Definition network : option types.NetworkIdentifier.t :=
  Some (types.NetworkIdentifier.mk "bitcoin" "mainnet" None).

Definition acct1 : types.AccountIdentifier.t :=
  types.AccountIdentifier.mk "acct1" None.

Definition acct2 : types.AccountIdentifier.t :=
  types.AccountIdentifier.mk "acct2" None.

End fetcher_scenarios.


(** ** Package [client]: api_network.go *)

Module client.

Import go.

(** [net/http]: [http.StatusOK] and the part of [*http.Response] that is
    read. [Body] is what [ioutil.ReadAll] yields on the response's body:
    the bytes and the read error. *)
Definition StatusOK : Z := 200.

Record Response : Type := {
  StatusCode : Z;
  Header : gmap string string;
  Body : string * option error
}.

(** [Header.Get]: the value under the key, the empty string without one. *)
Definition Header_Get (h : gmap string string) (key : string) : string :=
  default "" (h !! key).

(** The API client behind [a.client], with the helpers of the generated
    client.go that the sources do not hold, and the request and response
    types of the call. [decode] is split by the type of its target. *)
Record APIClient : Type := {
  Context : Type;
  NetworkStatusRequest : Type;
  NetworkStatusResponse : Type;
  Request : Type;
  cfg_BasePath : string;
  selectHeaderContentType : list string -> string;
  selectHeaderAccept : list string -> string;
  prepareRequest :
    Context -> string -> option NetworkStatusRequest -> gmap string string ->
    Request + error;
  callAPI : Context -> Request -> option Response * option error;
  decode_Error : string -> string -> types.Error.t + error;
  decode_NetworkStatusResponse : string -> string -> NetworkStatusResponse + error
}.

(** What a call of [NetworkStatus] does with its collaborators, in order. *)
Inductive event : Type :=
| PrepareRequest (path : string) (headerParams : gmap string string)
| CallAPI
| ReadAll
| DecodeError (body contentType : string)
| DecodeNetworkStatusResponse (body contentType : string)
| BodyClose.

(** The three results of [NetworkStatus]. *)
Definition result (a : APIClient) : Type :=
  option (NetworkStatusResponse a) * option types.Error.t * option error.

(** The path and the header map that [NetworkStatus] builds before it
    prepares the request. *)
Definition localVarPath (a : APIClient) : string :=
  cfg_BasePath a +:+ "/network/status".

Definition localVarHeaderParams (a : APIClient) : gmap string string :=
  let localVarHeaderParams : gmap string string := ∅ in
  let localVarHTTPContentTypes := ["application/json"] in
  let localVarHTTPContentType := selectHeaderContentType a localVarHTTPContentTypes in
  let localVarHeaderParams :=
    if bool_decide (localVarHTTPContentType <> "")
    then <["Content-Type" := localVarHTTPContentType]> localVarHeaderParams
    else localVarHeaderParams in
  let localVarHTTPHeaderAccepts := ["application/json"] in
  let localVarHTTPHeaderAccept := selectHeaderAccept a localVarHTTPHeaderAccepts in
  if bool_decide (localVarHTTPHeaderAccept <> "")
  then <["Accept" := localVarHTTPHeaderAccept]> localVarHeaderParams
  else localVarHeaderParams.

(** [NetworkStatus]: the results and the trace of the call. The deferred
    [Body.Close] runs at each return after the [defer] statement. *)
Definition NetworkStatus (a : APIClient) (ctx : Context a)
    (networkStatusRequest : option (NetworkStatusRequest a))
    : result a * list event :=
  let localVarPostBody := networkStatusRequest in
  let tr := [PrepareRequest (localVarPath a) (localVarHeaderParams a)] in
  match prepareRequest a ctx (localVarPath a) localVarPostBody
          (localVarHeaderParams a) with
  | inr err => ((None, None, Some err), tr)
  | inl r =>
      let tr := (tr ++ [CallAPI])%list in
      match callAPI a ctx r with
      | (_, Some err) => ((None, None, Some err), tr)
      | (None, None) => ((None, None, None), tr)
      | (Some localVarHTTPResponse, None) =>
          let '(localVarBody, err) := Body localVarHTTPResponse in
          let tr := (tr ++ [ReadAll])%list in
          match err with
          | Some err => ((None, None, Some err), (tr ++ [BodyClose])%list)
          | None =>
              let contentType :=
                Header_Get (Header localVarHTTPResponse) "Content-Type" in
              if bool_decide (StatusCode localVarHTTPResponse <> StatusOK)
              then
                let tr := (tr ++ [DecodeError localVarBody contentType])%list in
                match decode_Error a localVarBody contentType with
                | inr err => ((None, None, Some err), (tr ++ [BodyClose])%list)
                | inl v =>
                    ((None, Some v, Some (fmt.Errorf "%+v" [ArgError v])),
                     (tr ++ [BodyClose])%list)
                end
              else
                let tr :=
                  (tr ++ [DecodeNetworkStatusResponse localVarBody contentType])%list in
                match decode_NetworkStatusResponse a localVarBody contentType with
                | inr err => ((None, None, Some err), (tr ++ [BodyClose])%list)
                | inl v => ((Some v, None, None), (tr ++ [BodyClose])%list)
                end
          end
      end
  end.

(** The calls of [decode] in a trace. *)
Definition decodeCalls (tr : list event) : list event :=
  List.filter (fun ev => match ev with
                         | DecodeError _ _ | DecodeNetworkStatusResponse _ _ => true
                         | _ => false
                         end) tr.

(** The test [err != nil] a caller makes on the third result. *)
Definition errNotNil {a : APIClient} (res : result a) : bool :=
  match res.2 with Some _ => true | None => false end.

End client.


(** ** Scenarios for the client

    A node that answers every request with status 500 and the JSON of an
    error, one that answers with status 200, and a connection that fails. *)

Module client_scenarios.

Import go client.

Definition signatureInvalid : types.Error.t :=
  types.Error.mk 12 "signature invalid" false.

Definition jsonHeader : gmap string string :=
  {[ "Content-Type" := "application/json" ]}.

Definition answering (response : option Response * option error) : APIClient := {|
  Context := unit;
  NetworkStatusRequest := unit;
  NetworkStatusResponse := string;
  Request := string;
  cfg_BasePath := "http://localhost:8080";
  selectHeaderContentType := hd "";
  selectHeaderAccept := hd "";
  prepareRequest := fun _ path _ _ => inl path;
  callAPI := fun _ _ => response;
  decode_Error := fun _ _ => inl signatureInvalid;
  decode_NetworkStatusResponse := fun body _ => inl body
|}.

Definition errorBody : string := "{code:12,message:signature invalid}".

Definition internalServerError : Response :=
  {| StatusCode := 500; Header := jsonHeader; Body := (errorBody, None) |}.

Definition ok : Response :=
  {| StatusCode := 200; Header := jsonHeader; Body := ("{}", None) |}.

Definition failingNode : APIClient := answering (Some internalServerError, None).

Definition healthyNode : APIClient := answering (Some ok, None).

Definition unreachableNode : APIClient :=
  answering (None, Some (errors.New "dial tcp: connection refused")).

End client_scenarios.


(** ** One turn of the retry loop, as a relation

    What a turn of [AccountBalanceRetry] can do, read off account.go case
    by case: the outcome of the turn and the trace it leaves. *)

Module fetcher_turns.

Import go fetcher.

(** The one request every attempt sends. *)
Definition request (network : option types.NetworkIdentifier.t)
    (account : option types.AccountIdentifier.t) : types.AccountBalanceRequest.t :=
  types.AccountBalanceRequest.mk network account.

(** The first operand of [tryAgain]. *)
Definition fetchMsg (a : types.AccountIdentifier.t) : string :=
  "account " +:+ types.AccountIdentifier.Address a.

(** The events of a turn that ends in [tryAgain]. *)
Definition round (req : types.AccountBalanceRequest.t) (msg : string) (e : error)
    : list event :=
  [CtxErr; TransportCall req; TryAgain msg e].

(** The attempt made at time [t] fails with [e]: the transport returns the
    error [e], or a response that the asserter rejects with [e]. *)
Definition attemptFails (E : Env) (t : nat) (req : types.AccountBalanceRequest.t)
    (e : error) : Prop :=
  match AccountAPI_AccountBalance E t req with
  | (_, _, Some e') => e = e'
  | (Some b, _, None) =>
      asserter.AccountBalance (types.AccountBalanceResponse.BlockIdentifier b)
        (types.AccountBalanceResponse.Balances b) = Some e
  | (None, _, None) => False
  end.

Inductive turn (E : Env) (network : option types.NetworkIdentifier.t)
    (account : option types.AccountIdentifier.t) (backoff : BackOff E)
    (tr : list event) : outcome (control E) -> list event -> Prop :=
| turn_cancelled e :
    ctx_Err E (List.length tr) = Some e ->
    turn E network account backoff tr (Returns Break) (tr ++ [CtxErr])
| turn_success b d :
    ctx_Err E (List.length tr) = None ->
    AccountAPI_AccountBalance E (S (List.length tr)) (request network account)
    = (Some b, d, None) ->
    asserter.AccountBalance (types.AccountBalanceResponse.BlockIdentifier b)
      (types.AccountBalanceResponse.Balances b) = None ->
    turn E network account backoff tr
      (Returns (Return (types.AccountBalanceResponse.BlockIdentifier b,
                        types.AccountBalanceResponse.Balances b, None)))
      (tr ++ [CtxErr; TransportCall (request network account)])
| turn_nil_response d :
    ctx_Err E (List.length tr) = None ->
    AccountAPI_AccountBalance E (S (List.length tr)) (request network account)
    = (None, d, None) ->
    turn E network account backoff tr
      (Panics (nil_pointer_dereference "balance"))
      (tr ++ [CtxErr; TransportCall (request network account)])
| turn_nil_account e :
    ctx_Err E (List.length tr) = None ->
    account = None ->
    attemptFails E (S (List.length tr)) (request network account) e ->
    turn E network account backoff tr
      (Panics (nil_pointer_dereference "account"))
      (tr ++ [CtxErr; TransportCall (request network account)])
| turn_retry a e :
    ctx_Err E (List.length tr) = None ->
    account = Some a ->
    attemptFails E (S (List.length tr)) (request network account) e ->
    turn E network account backoff tr
      (Returns
         (if (tryAgain E (S (S (List.length tr))) (fetchMsg a) backoff e).1
          then Continue (tryAgain E (S (S (List.length tr))) (fetchMsg a) backoff e).2
          else Break))
      (tr ++ round (request network account) (fetchMsg a) e).

(** How a finished call ended: the events of its last turn and its
    outcome. *)
Definition lastTurn (req : types.AccountBalanceRequest.t) (msg : string)
    (out : outcome result) (final : list event) : Prop :=
  (final = [CtxErr] /\ out = Returns exhausted)
  \/ (final = [CtxErr; TransportCall req]
      /\ ((exists block balances, out = Returns (block, balances, None))
          \/ out = Panics (nil_pointer_dereference "balance")))
  \/ (exists e, final = round req msg e /\ out = Returns exhausted).

(** The environment with the second result of the transport replaced. *)
Definition withDomainError (E : Env)
    (domainError : nat -> types.AccountBalanceRequest.t -> option types.Error.t)
    : Env := {|
  BackOff := BackOff E;
  backoffRetries := backoffRetries E;
  tryAgain := tryAgain E;
  ctx_Err := ctx_Err E;
  AccountAPI_AccountBalance := fun t req =>
    let '(balance, _, err) := AccountAPI_AccountBalance E t req in
    (balance, domainError t req, err)
|}.

(** Nodes for concrete runs: one that answers every request with the given
    response, with the counting back-off and a context never cancelled, and
    one that answers with neither a response nor an error. *)
Definition answeringWith (response : option types.AccountBalanceResponse.t) : Env := {|
  BackOff := nat;
  backoffRetries := fun _ maxRetries => Z.to_nat maxRetries;
  tryAgain := fetcher_scenarios.countingTryAgain;
  ctx_Err := fun _ => None;
  AccountAPI_AccountBalance := fun _ _ => (response, None, None)
|}.

Definition goodResponse : types.AccountBalanceResponse.t :=
  types.AccountBalanceResponse.mk
    (Some (types.BlockIdentifier.mk 1000 "jsakdl"))
    [types.Balance.mk fetcher_scenarios.acct1
       [types.Amount.mk "100" (types.Currency.mk "BTC" 8 None)]].

Definition badResponse : types.AccountBalanceResponse.t :=
  types.AccountBalanceResponse.mk
    (Some (types.BlockIdentifier.mk 1 ""))
    [types.Balance.mk fetcher_scenarios.acct1
       [types.Amount.mk "100" (types.Currency.mk "BTC" 8 None)]].

End fetcher_turns.


(** * Properties *)

(** ** Structural equality of the asserter *)

Module asserter_facts.

Import go asserter.

(** The specification's wording of equal metadata maps: the same key set,
    and an equal value under each key. *)
Definition sameKeysAndValues (m1 m2 : gmap string types.MetadataValue) : Prop :=
  dom m1 = dom m2
  /\ forall k v1 v2, m1 !! k = Some v1 -> m2 !! k = Some v2 -> v1 = v2.

Definition sameMetadata (a b : types.MetadataMap) : Prop :=
  match a, b with
  | None, None => True
  | Some m1, Some m2 => sameKeysAndValues m1 m2
  | _, _ => False
  end.

Definition sameSubAccount (a b : option types.SubAccountIdentifier.t) : Prop :=
  match a, b with
  | None, None => True
  | Some x, Some y =>
      types.SubAccountIdentifier.Address x = types.SubAccountIdentifier.Address y
      /\ sameMetadata (types.SubAccountIdentifier.Metadata x)
                      (types.SubAccountIdentifier.Metadata y)
  | _, _ => False
  end.

(** The currencies of a balance and the accounts of a response. *)
Definition currenciesOf (amounts : list types.Amount.t) : list types.Currency.t :=
  types.Amount.Currency <$> amounts.

Definition accountsOf (balances : list types.Balance.t)
    : list types.AccountIdentifier.t :=
  types.Balance.AccountIdentifier <$> balances.

(** A balance entry that is valid by itself: its account identifier passes
    and no two of its amounts share a currency. *)
Definition validEntry (balance : types.Balance.t) : Prop :=
  asserter.AccountIdentifier (types.Balance.AccountIdentifier balance) = None
  /\ NoDup (currenciesOf (types.Balance.Amounts balance)).

Lemma sameKeysAndValues_eq m1 m2 : sameKeysAndValues m1 m2 <-> m1 = m2.
Proof.
  split; [intros [Hdom Hval] | intros ->; split; [done | congruence]].
  apply map_eq; intros k.
  destruct (m1 !! k) as [v1|] eqn:E1, (m2 !! k) as [v2|] eqn:E2; trivial.
  - f_equal; eauto.
  - apply not_elem_of_dom in E2. rewrite <- Hdom in E2.
    apply not_elem_of_dom in E2. congruence.
  - apply not_elem_of_dom in E1. rewrite Hdom in E1.
    apply not_elem_of_dom in E1. congruence.
Qed.

Lemma mapDeepEqual_true m1 m2 : mapDeepEqual m1 m2 = true <-> m1 = m2.
Proof.
  unfold mapDeepEqual.
  rewrite andb_true_iff, bool_decide_eq_true, forallb_forall.
  split.
  - intros [Hdom Hall]. apply map_eq; intros k.
    destruct (m1 !! k) as [v1|] eqn:E1.
    + apply elem_of_map_to_list, list_elem_of_In, Hall in E1.
      apply bool_decide_eq_true in E1. symmetry; exact E1.
    + apply not_elem_of_dom in E1. rewrite Hdom in E1.
      apply not_elem_of_dom in E1. congruence.
  - intros ->. split; [done |]. intros [k v] Hin.
    apply list_elem_of_In, elem_of_map_to_list in Hin.
    apply bool_decide_eq_true. exact Hin.
Qed.

Lemma metadataDeepEqual_true a b : metadataDeepEqual a b = true <-> a = b.
Proof.
  destruct a as [m1|], b as [m2|]; simpl; try (split; congruence).
  rewrite mapDeepEqual_true. split; congruence.
Qed.

Lemma sameMetadata_eq a b : sameMetadata a b <-> a = b.
Proof.
  destruct a as [m1|], b as [m2|]; simpl; try (split; [tauto | congruence]).
  - rewrite sameKeysAndValues_eq. split; congruence.
  - split; trivial.
Qed.

Lemma currencyDeepEqual_true a b : currencyDeepEqual a b = true <-> a = b.
Proof.
  unfold currencyDeepEqual.
  rewrite !andb_true_iff, bool_decide_eq_true, Z.eqb_eq, metadataDeepEqual_true.
  destruct a, b; simpl. split; [intros [[-> ->] ->]; reflexivity | ].
  intros [= -> -> ->]. auto.
Qed.

Lemma subAccountDeepEqual_true a b : subAccountDeepEqual a b = true <-> a = b.
Proof.
  destruct a as [[a1 m1]|], b as [[a2 m2]|]; simpl; try (split; congruence).
  rewrite andb_true_iff, bool_decide_eq_true, metadataDeepEqual_true.
  split; [intros [-> ->]; reflexivity | intros [= -> ->]; auto].
Qed.

Lemma accountIdentifierDeepEqual_true a b :
  accountIdentifierDeepEqual a b = true <-> a = b.
Proof.
  unfold accountIdentifierDeepEqual.
  rewrite andb_true_iff, bool_decide_eq_true, subAccountDeepEqual_true.
  destruct a, b; simpl. split; [intros [-> ->]; reflexivity | intros [= -> ->]; auto].
Qed.

Lemma containsCurrency_true currencies currency :
  containsCurrency currencies currency = true <-> currency ∈ currencies.
Proof.
  unfold containsCurrency. rewrite existsb_exists, list_elem_of_In. split.
  - intros (c & Hin & Heq). apply currencyDeepEqual_true in Heq. congruence.
  - intros Hin. exists currency. split; [exact Hin | by apply currencyDeepEqual_true].
Qed.

Lemma containsAccountIdentifier_true identifiers identifier :
  containsAccountIdentifier identifiers identifier = true <-> identifier ∈ identifiers.
Proof.
  unfold containsAccountIdentifier. rewrite existsb_exists, list_elem_of_In. split.
  - intros (c & Hin & Heq). apply accountIdentifierDeepEqual_true in Heq. congruence.
  - intros Hin. exists identifier.
    split; [exact Hin | by apply accountIdentifierDeepEqual_true].
Qed.

Lemma insert_value_inj (m : gmap string types.MetadataValue) k v1 v2 :
  <[k:=v1]> m = <[k:=v2]> m -> v1 = v2.
Proof.
  intros Heq. assert (H : <[k:=v1]> m !! k = <[k:=v2]> m !! k) by (by rewrite Heq).
  rewrite !lookup_insert_eq in H. congruence.
Qed.

(** *** The scans of [AccountBalance] *)

Lemma assertBalanceAmounts_None seen amounts :
  assertBalanceAmounts seen amounts = None
  <-> NoDup (currenciesOf amounts)
      /\ forall c, c ∈ currenciesOf amounts -> c ∉ seen.
Proof.
  unfold currenciesOf.
  revert seen; induction amounts as [|a rest IH]; intros seen; simpl.
  - split; [ | reflexivity]. intros _. split; [constructor | ].
    intros c Hc. by apply elem_of_nil in Hc.
  - destruct (containsCurrency seen (types.Amount.Currency a)) eqn:E.
    + apply containsCurrency_true in E. split; [discriminate | ].
      intros [_ Hall]. exfalso.
      apply (Hall (types.Amount.Currency a)); [apply list_elem_of_here | exact E].
    + assert (Hnew : types.Amount.Currency a ∉ seen).
      { rewrite <- containsCurrency_true. congruence. }
      rewrite IH, NoDup_cons. split.
      * intros [Hnd Hall]. split; [split; [ | exact Hnd] | ].
        -- intros Hin. apply (Hall _ Hin). apply elem_of_app. right.
           apply list_elem_of_here.
        -- intros c Hc. apply elem_of_cons in Hc as [-> | Hc]; [exact Hnew | ].
           intros Hs. apply (Hall c Hc). apply elem_of_app. by left.
      * intros [[Hnotin Hnd] Hall]. split; [exact Hnd | ].
        intros c Hc Hin. apply elem_of_app in Hin as [Hin | Hin].
        -- apply (Hall c); [by apply list_elem_of_further | exact Hin].
        -- apply list_elem_of_singleton in Hin. subst c. exact (Hnotin Hc).
Qed.

Lemma assertBalanceAmounts_Some seen amounts err :
  assertBalanceAmounts seen amounts = Some err ->
  exists c, c ∈ currenciesOf amounts /\ err = DuplicateCurrencyInBalance c.
Proof.
  unfold currenciesOf.
  revert seen; induction amounts as [|a rest IH]; intros seen; simpl;
    [discriminate | ].
  destruct (containsCurrency seen (types.Amount.Currency a)).
  - intros [= <-]. eexists. split; [apply list_elem_of_here | reflexivity].
  - intros H. apply IH in H as (c & Hc & ->).
    exists c. split; [by apply list_elem_of_further | reflexivity].
Qed.

Lemma assertUniqueAccounts_None seen balances :
  assertUniqueAccounts seen balances = None
  <-> NoDup (accountsOf balances)
      /\ forall a, a ∈ accountsOf balances -> a ∉ seen.
Proof.
  unfold accountsOf.
  revert seen; induction balances as [|b rest IH]; intros seen; simpl.
  - split; [ | reflexivity]. intros _. split; [constructor | ].
    intros c Hc. by apply elem_of_nil in Hc.
  - destruct (containsAccountIdentifier seen (types.Balance.AccountIdentifier b)) eqn:E.
    + apply containsAccountIdentifier_true in E. split; [discriminate | ].
      intros [_ Hall]. exfalso.
      apply (Hall (types.Balance.AccountIdentifier b));
        [apply list_elem_of_here | exact E].
    + assert (Hnew : types.Balance.AccountIdentifier b ∉ seen).
      { rewrite <- containsAccountIdentifier_true. congruence. }
      rewrite IH, NoDup_cons. split.
      * intros [Hnd Hall]. split; [split; [ | exact Hnd] | ].
        -- intros Hin. apply (Hall _ Hin). apply elem_of_app. right.
           apply list_elem_of_here.
        -- intros c Hc. apply elem_of_cons in Hc as [-> | Hc]; [exact Hnew | ].
           intros Hs. apply (Hall c Hc). apply elem_of_app. by left.
      * intros [[Hnotin Hnd] Hall]. split; [exact Hnd | ].
        intros c Hc Hin. apply elem_of_app in Hin as [Hin | Hin].
        -- apply (Hall c); [by apply list_elem_of_further | exact Hin].
        -- apply list_elem_of_singleton in Hin. subst c. exact (Hnotin Hc).
Qed.

Lemma assertUniqueAccounts_Some seen balances err :
  assertUniqueAccounts seen balances = Some err ->
  exists a, a ∈ accountsOf balances /\ err = DuplicateAccountIdentifier a.
Proof.
  unfold accountsOf.
  revert seen; induction balances as [|b rest IH]; intros seen; simpl;
    [discriminate | ].
  destruct (containsAccountIdentifier seen (types.Balance.AccountIdentifier b)).
  - intros [= <-]. eexists. split; [apply list_elem_of_here | reflexivity].
  - intros H. apply IH in H as (c & Hc & ->).
    exists c. split; [by apply list_elem_of_further | reflexivity].
Qed.

Lemma assertBalanceEntries_None balances :
  assertBalanceEntries balances = None <-> Forall validEntry balances.
Proof.
  induction balances as [|b rest IH]; simpl.
  - split; [constructor | reflexivity].
  - rewrite Forall_cons. unfold validEntry at 1.
    destruct (asserter.AccountIdentifier (types.Balance.AccountIdentifier b)) eqn:Ea.
    { split; [discriminate | intros [[Hacc _] _]; discriminate]. }
    destruct (assertBalanceAmounts [] (types.Balance.Amounts b)) eqn:Eb.
    + split; [discriminate | ]. intros [[_ Hnd] _].
      assert (Hn : assertBalanceAmounts [] (types.Balance.Amounts b) = None).
      { apply assertBalanceAmounts_None. split; [exact Hnd | ].
        intros c _ Hc. by apply elem_of_nil in Hc. }
      congruence.
    + apply assertBalanceAmounts_None in Eb as [Hnd _]. rewrite IH. tauto.
Qed.

Lemma assertBalanceEntries_app pre post :
  Forall validEntry pre ->
  assertBalanceEntries (pre ++ post) = assertBalanceEntries post.
Proof.
  induction 1 as [|b pre [Hacc Hnd] _ IH]; simpl; [reflexivity | ].
  rewrite Hacc.
  assert (Hn : assertBalanceAmounts [] (types.Balance.Amounts b) = None).
  { apply assertBalanceAmounts_None. split; [exact Hnd | ].
    intros c _ Hc. by apply elem_of_nil in Hc. }
  rewrite Hn. exact IH.
Qed.

(** Two positions of a list with the same element: the list repeats it. *)
Lemma not_NoDup_lookup {A} (l : list A) i j x :
  i <> j -> l !! i = Some x -> l !! j = Some x -> ~ NoDup l.
Proof. intros Hij Hi Hj Hnd. exact (Hij (NoDup_lookup l i j x Hnd Hi Hj)). Qed.

End asserter_facts.

Import asserter_facts.

(** C5. [containsCurrency] and [containsAccountIdentifier] compare by deep
    equality: two currencies are equal exactly when symbol and decimals
    match and the metadata slots are both absent or hold maps with the same
    key set and equal values per key; two account identifiers exactly when
    the addresses match and the sub-accounts are both absent or match in
    address and metadata. Hence a list that holds a currency contains it, a
    currency that differs only in one metadata value is not found, and an
    account identifier that differs only in one value of the sub-account's
    metadata is not found. *)
Theorem contains_deep_equality :
  (forall a b : types.Currency.t,
      asserter.currencyDeepEqual a b = true <->
      types.Currency.Symbol a = types.Currency.Symbol b
      /\ types.Currency.Decimals a = types.Currency.Decimals b
      /\ sameMetadata (types.Currency.Metadata a) (types.Currency.Metadata b))
  /\ (forall a b : types.AccountIdentifier.t,
      asserter.accountIdentifierDeepEqual a b = true <->
      types.AccountIdentifier.Address a = types.AccountIdentifier.Address b
      /\ sameSubAccount (types.AccountIdentifier.SubAccount a)
                        (types.AccountIdentifier.SubAccount b))
  /\ (forall currencies currency,
      asserter.containsCurrency currencies currency = true <->
      exists curr, curr ∈ currencies /\ asserter.currencyDeepEqual curr currency = true)
  /\ (forall identifiers identifier,
      asserter.containsAccountIdentifier identifiers identifier = true <->
      exists acct, acct ∈ identifiers
                   /\ asserter.accountIdentifierDeepEqual acct identifier = true)
  /\ (forall before after (currency : types.Currency.t),
      asserter.containsCurrency (before ++ currency :: after) currency = true)
  /\ (forall symbol decimals m k v1 v2,
      v1 <> v2 ->
      asserter.containsCurrency
        [types.Currency.mk symbol decimals (Some (<[k:=v1]> m))]
        (types.Currency.mk symbol decimals (Some (<[k:=v2]> m))) = false)
  /\ (forall address sub m k v1 v2,
      v1 <> v2 ->
      asserter.containsAccountIdentifier
        [types.AccountIdentifier.mk address
           (Some (types.SubAccountIdentifier.mk sub (Some (<[k:=v1]> m))))]
        (types.AccountIdentifier.mk address
           (Some (types.SubAccountIdentifier.mk sub (Some (<[k:=v2]> m))))) = false).
Proof.
  repeat apply conj.
  - intros a b. rewrite currencyDeepEqual_true, sameMetadata_eq.
    destruct a, b; simpl. split; [intros [= -> -> ->]; auto | ].
    intros (-> & -> & ->). reflexivity.
  - intros a b. rewrite accountIdentifierDeepEqual_true.
    destruct a as [a1 s1], b as [a2 s2]; simpl.
    assert (Hsub : sameSubAccount s1 s2 <-> s1 = s2).
    { destruct s1 as [[x1 m1]|], s2 as [[x2 m2]|]; simpl;
        try (split; [tauto | congruence]).
      - rewrite sameMetadata_eq. split; [intros [-> ->]; reflexivity | ].
        intros [= -> ->]. auto.
      - split; trivial. }
    rewrite Hsub. split; [intros [= -> ->]; auto | intros [-> ->]; reflexivity].
  - intros currencies currency. unfold asserter.containsCurrency.
    rewrite existsb_exists. setoid_rewrite list_elem_of_In. reflexivity.
  - intros identifiers identifier. unfold asserter.containsAccountIdentifier.
    rewrite existsb_exists. setoid_rewrite list_elem_of_In. reflexivity.
  - intros before after currency. apply containsCurrency_true.
    apply elem_of_app. right. apply list_elem_of_here.
  - intros symbol decimals m k v1 v2 Hne.
    apply not_true_iff_false. rewrite containsCurrency_true.
    intros Hin. apply list_elem_of_singleton in Hin.
    injection Hin as Heq. symmetry in Heq.
    exact (Hne (insert_value_inj _ _ _ _ Heq)).
  - intros address sub m k v1 v2 Hne.
    apply not_true_iff_false. rewrite containsAccountIdentifier_true.
    intros Hin. apply list_elem_of_singleton in Hin.
    injection Hin as Heq. symmetry in Heq.
    exact (Hne (insert_value_inj _ _ _ _ Heq)).
Qed.

(** The metadata mismatch cases of TestContainsCurrency and
    TestContainsAccountIdentifier, from [contains_deep_equality]. *)
Lemma contains_deep_equality_witness :
  asserter.containsCurrency
    [asserter_test.BTC 8 (asserter_test.metadata "hello")]
    (asserter_test.BTC 8 (asserter_test.metadata "bye")) = false
  /\ asserter.containsAccountIdentifier
       [asserter_test.acct "acct1" (asserter_test.subacct "subacct1" "hello")]
       (asserter_test.acct "acct1" (asserter_test.subacct "subacct1" "bye")) = false.
Proof.
  destruct contains_deep_equality as (_ & _ & _ & _ & _ & Hcur & Hacct).
  split.
  - apply (Hcur "BTC" 8 ∅ "blah" (types.MString "hello") (types.MString "bye")).
    discriminate.
  - apply (Hacct "acct1" "subacct1" ∅ "blah"
             (types.MString "hello") (types.MString "bye")).
    discriminate.
Defined.

(** ** The network checks *)

(** The models answer the tables of network_test.go as listed. *)
Lemma network_tests_pass :
  asserter_test.TestNetworkIdentifier asserter.NetworkIdentifier = true
  /\ asserter_test.TestVersion asserter.Version = true
  /\ asserter_test.TestNetworkOptions asserter.NetworkOptions = true.
Proof. repeat split; vm_compute; reflexivity. Qed.

(** Whatever passes TestNetworkIdentifier answers "NetworkIdentifier is nil"
    on the identifier of its case "invalid blockchain". *)
Lemma TestNetworkIdentifier_invalid_blockchain
    (impl : option types.NetworkIdentifier.t -> option go.error) :
  asserter_test.TestNetworkIdentifier impl = true ->
  impl (Some (types.NetworkIdentifier.mk "" "mainnet" None))
  = Some (errors.New "NetworkIdentifier is nil").
Proof.
  unfold asserter_test.TestNetworkIdentifier. rewrite forallb_forall.
  intros Hall.
  specialize (Hall ("invalid blockchain",
                    Some (types.NetworkIdentifier.mk "" "mainnet" None),
                    Some (errors.New "NetworkIdentifier is nil"))).
  simpl in Hall. apply bool_decide_eq_true in Hall; [congruence | ].
  right; right; left; reflexivity.
Qed.

(** The check worded as in the specification does not pass that test, and
    differs from the check only on a present identifier with an empty
    blockchain. *)
Lemma NetworkIdentifier_spec_fails_test :
  asserter_test.TestNetworkIdentifier asserter.NetworkIdentifier_spec = false.
Proof. vm_compute. reflexivity. Qed.

Lemma NetworkIdentifier_spec_agrees network :
  (forall n, network = Some n -> types.NetworkIdentifier.Blockchain n <> "") ->
  asserter.NetworkIdentifier network = asserter.NetworkIdentifier_spec network.
Proof.
  intros Hne. destruct network as [n|]; [ | reflexivity].
  unfold asserter.NetworkIdentifier, asserter.NetworkIdentifier_spec.
  rewrite bool_decide_eq_false_2 by (apply Hne; reflexivity). reflexivity.
Qed.

(** C2, as stated, fails: a present identifier with an empty blockchain is
    answered with the nil-identifier error, not with the field-missing error
    of the blockchain. *)
Lemma NetworkIdentifier_empty_blockchain_is_nil_error :
  asserter.NetworkIdentifier (Some (types.NetworkIdentifier.mk "" "mainnet" None))
  = Some (asserter.IdentifierNil "NetworkIdentifier")
  /\ asserter.NetworkIdentifier (Some (types.NetworkIdentifier.mk "" "mainnet" None))
     <> Some (asserter.FieldMissing "NetworkIdentifier.Blockchain").
Proof. split; [reflexivity | discriminate]. Qed.

(** C2, amended. The check fails IdentifierNil exactly when the input is
    absent or its blockchain is empty; with a blockchain, it fails
    FieldMissing(Network) when the network is empty; with both, it fails
    FieldMissing(SubNetwork.Network) when a sub-network is present with an
    empty network name; and it passes exactly when blockchain and network
    are non-empty and a present sub-network has a network name. *)
Theorem NetworkIdentifier_check :
  (forall network,
     asserter.NetworkIdentifier network
     = Some (asserter.IdentifierNil "NetworkIdentifier")
     <-> network = None
         \/ exists n, network = Some n /\ types.NetworkIdentifier.Blockchain n = "")
  /\ (forall n,
        types.NetworkIdentifier.Blockchain n <> "" ->
        types.NetworkIdentifier.Network n = "" ->
        asserter.NetworkIdentifier (Some n)
        = Some (asserter.FieldMissing "NetworkIdentifier.Network"))
  /\ (forall n s,
        types.NetworkIdentifier.Blockchain n <> "" ->
        types.NetworkIdentifier.Network n <> "" ->
        types.NetworkIdentifier.SubNetworkIdentifier n = Some s ->
        types.SubNetworkIdentifier.Network s = "" ->
        asserter.NetworkIdentifier (Some n)
        = Some (asserter.FieldMissing "NetworkIdentifier.SubNetworkIdentifier.Network"))
  /\ (forall network,
        asserter.NetworkIdentifier network = None
        <-> exists n, network = Some n
              /\ types.NetworkIdentifier.Blockchain n <> ""
              /\ types.NetworkIdentifier.Network n <> ""
              /\ forall s, types.NetworkIdentifier.SubNetworkIdentifier n = Some s ->
                           types.SubNetworkIdentifier.Network s <> "").
Proof.
  unfold asserter.NetworkIdentifier, asserter.SubNetworkIdentifier.
  split; [ | split; [ | split]].
  - intros [[blockchain net sub]|]; simpl; [ | split; auto].
    split.
    + repeat case_bool_decide; try discriminate.
      * intros _. right. eexists; split; [reflexivity | assumption].
      * destruct sub as [s|]; [case_bool_decide | ]; discriminate.
    + intros [Hnone | (n & [= <-] & Hb)]; [discriminate | ].
      simpl in Hb. rewrite bool_decide_eq_true_2 by exact Hb. reflexivity.
  - intros n Hb Hn.
    rewrite bool_decide_eq_false_2 by exact Hb.
    rewrite bool_decide_eq_true_2 by exact Hn. reflexivity.
  - intros n s Hb Hn -> Hs.
    rewrite bool_decide_eq_false_2 by exact Hb.
    rewrite bool_decide_eq_false_2 by exact Hn.
    rewrite bool_decide_eq_true_2 by exact Hs. reflexivity.
  - intros [[blockchain net sub]|]; simpl.
    2:{ split; [discriminate | intros (n & Hn & _); discriminate]. }
    split.
    + repeat case_bool_decide; try discriminate. intros Hsub.
      eexists; split; [reflexivity | ]. simpl. repeat split; try assumption.
      intros s ->. case_bool_decide; [discriminate | assumption].
    + intros (n & [= <-] & Hb & Hn & Hs); simpl in *.
      rewrite bool_decide_eq_false_2 by exact Hb.
      rewrite bool_decide_eq_false_2 by exact Hn.
      destruct sub as [s|]; [ | reflexivity].
      rewrite bool_decide_eq_false_2 by (apply Hs; reflexivity). reflexivity.
Qed.

(** The cases "invalid network" and "invalid sub_network" of
    TestNetworkIdentifier, from [NetworkIdentifier_check]. *)
Lemma NetworkIdentifier_check_witness :
  asserter.NetworkIdentifier (Some (types.NetworkIdentifier.mk "bitcoin" "" None))
  = Some (errors.New "NetworkIdentifier.Network is missing")
  /\ asserter.NetworkIdentifier
       (Some (types.NetworkIdentifier.mk "bitcoin" "mainnet"
                (Some (types.SubNetworkIdentifier.mk "" None))))
     = Some (errors.New "NetworkIdentifier.SubNetworkIdentifier.Network is missing").
Proof.
  destruct NetworkIdentifier_check as (_ & Hnet & Hsub & _).
  split.
  - apply (Hnet (types.NetworkIdentifier.mk "bitcoin" "" None));
      [discriminate | reflexivity].
  - apply (Hsub (types.NetworkIdentifier.mk "bitcoin" "mainnet"
                   (Some (types.SubNetworkIdentifier.mk "" None)))
                (types.SubNetworkIdentifier.mk "" None));
      [discriminate | discriminate | reflexivity | reflexivity].
Defined.

(** C6. The version check fails exactly when the version is absent, its
    node version is empty, or its middleware version is present and empty;
    the last case, with a node version, fails
    FieldMissing(MiddlewareVersion); with a node version, a present
    non-empty middleware version passes and so does an absent one. *)
Theorem Version_check :
  (forall version,
     asserter.Version version <> None
     <-> version = None
         \/ exists v, version = Some v
              /\ (types.Version.NodeVersion v = ""
                  \/ types.Version.MiddlewareVersion v = Some ""))
  /\ asserter.Version None = Some (asserter.IdentifierNil "version")
  /\ (forall v,
        types.Version.NodeVersion v = "" ->
        asserter.Version (Some v) = Some (asserter.FieldMissing "Version.NodeVersion"))
  /\ (forall v,
        types.Version.NodeVersion v <> "" ->
        types.Version.MiddlewareVersion v = Some "" ->
        asserter.Version (Some v)
        = Some (asserter.FieldMissing "Version.MiddlewareVersion"))
  /\ (forall v m,
        types.Version.NodeVersion v <> "" ->
        types.Version.MiddlewareVersion v = Some m -> m <> "" ->
        asserter.Version (Some v) = None)
  /\ (forall v,
        types.Version.NodeVersion v <> "" ->
        types.Version.MiddlewareVersion v = None ->
        asserter.Version (Some v) = None).
Proof.
  unfold asserter.Version.
  split; [ | split; [reflexivity | split; [ | split; [ | split]]]].
  - intros [[rosetta node middleware]|]; simpl; [ | split; auto; discriminate].
    split.
    + intros Hfail. right. eexists; split; [reflexivity | ]. simpl.
      case_bool_decide; [left; assumption | ].
      destruct middleware as [m|]; [ | congruence].
      case_bool_decide; [right; congruence | congruence].
    + intros [Hnone | (v & [= <-] & [Hn | Hm])]; simpl in *; [discriminate | | ].
      * rewrite bool_decide_eq_true_2 by exact Hn. discriminate.
      * case_bool_decide; [discriminate | ]. rewrite Hm. discriminate.
  - intros v Hn. rewrite bool_decide_eq_true_2 by exact Hn. reflexivity.
  - intros v Hn ->. rewrite bool_decide_eq_false_2 by exact Hn. reflexivity.
  - intros v m Hn -> Hm.
    rewrite bool_decide_eq_false_2 by exact Hn.
    rewrite bool_decide_eq_false_2 by exact Hm. reflexivity.
  - intros v Hn ->. rewrite bool_decide_eq_false_2 by exact Hn. reflexivity.
Qed.

(** The cases "valid version with middleware" and "invalid
    MiddlewareVersion" of TestVersion, from [Version_check]. *)
Lemma Version_check_witness :
  asserter.Version
    (Some (types.Version.mk asserter_test.validRosettaVersion "1.0"
             (Some asserter_test.middlewareVersion))) = None
  /\ asserter.Version
       (Some (types.Version.mk asserter_test.validRosettaVersion "1.0"
                (Some asserter_test.invalidMiddlewareVersion)))
     = Some (errors.New "Version.MiddlewareVersion is missing").
Proof.
  destruct Version_check as (_ & _ & _ & Hfail & Hpass & _).
  split.
  - apply (Hpass _ "1.2"); [discriminate | reflexivity | discriminate].
  - apply Hfail; [discriminate | reflexivity].
Defined.

(** C7. The options check reports, in this order of priority: an empty
    list of operation statuses; no status flagged successful; an empty list
    of operation types. An earlier failure is reported whatever the later
    fields hold, and options with a successful status and a type pass. *)
Theorem NetworkOptions_priority :
  (forall o,
     types.Options.OperationStatuses o = [] ->
     asserter.NetworkOptions (Some o)
     = Some (asserter.Empty "Options.OperationStatuses"))
  /\ (forall o,
        types.Options.OperationStatuses o <> [] ->
        (forall s, s ∈ types.Options.OperationStatuses o ->
                   types.OperationStatus.Successful s = false) ->
        asserter.NetworkOptions (Some o) = Some asserter.NoSuccessfulStatus)
  /\ (forall o s,
        s ∈ types.Options.OperationStatuses o ->
        types.OperationStatus.Successful s = true ->
        types.Options.OperationTypes o = [] ->
        asserter.NetworkOptions (Some o) = Some (asserter.Empty "Options.OperationTypes"))
  /\ (forall o s,
        s ∈ types.Options.OperationStatuses o ->
        types.OperationStatus.Successful s = true ->
        types.Options.OperationTypes o <> [] ->
        asserter.NetworkOptions (Some o) = None)
  /\ asserter.NetworkOptions
       (Some (types.Options.mk
                [types.OperationStatus.mk "SUCCESS" true;
                 types.OperationStatus.mk "FAILURE" false]
                ["PAYMENT"])) = None.
Proof.
  assert (Hsucc : forall o s, s ∈ types.Options.OperationStatuses o ->
             types.OperationStatus.Successful s = true ->
             existsb types.OperationStatus.Successful
               (types.Options.OperationStatuses o) = true).
  { intros o s Hin Hs. apply existsb_exists. exists s.
    split; [by apply list_elem_of_In | exact Hs]. }
  split; [ | split; [ | split; [ | split; [ | reflexivity]]]].
  - intros [statuses optypes]; simpl. intros ->. reflexivity.
  - intros [statuses optypes]; simpl. intros Hne Hall.
    destruct statuses as [|s0 rest]; [congruence | ].
    assert (Hex : existsb types.OperationStatus.Successful (s0 :: rest) = false).
    { apply not_true_iff_false. rewrite existsb_exists.
      intros (s & Hin & Hs). apply list_elem_of_In in Hin.
      rewrite (Hall s Hin) in Hs. discriminate. }
    unfold asserter.NetworkOptions; simpl types.Options.OperationStatuses.
    rewrite Hex. reflexivity.
  - intros o s Hin Hs Ht. pose proof (Hsucc o s Hin Hs) as Hex.
    destruct o as [statuses optypes]; simpl in *. subst optypes.
    unfold asserter.NetworkOptions; simpl types.Options.OperationStatuses.
    rewrite Hex. destruct statuses; [by apply elem_of_nil in Hin | reflexivity].
  - intros o s Hin Hs Hne. pose proof (Hsucc o s Hin Hs) as Hex.
    destruct o as [statuses optypes]; simpl in *.
    unfold asserter.NetworkOptions; simpl types.Options.OperationStatuses.
    rewrite Hex. destruct statuses; [by apply elem_of_nil in Hin | ].
    destruct optypes; [congruence | reflexivity].
Qed.

(** The failing cases of TestNetworkOptions and one with every invariant
    violated at once, from [NetworkOptions_priority]. *)
Lemma NetworkOptions_priority_witness :
  asserter.NetworkOptions (Some (types.Options.mk [] []))
  = Some (errors.New "no Options.OperationStatuses found")
  /\ asserter.NetworkOptions
       (Some (types.Options.mk [types.OperationStatus.mk "FAILURE" false] []))
     = Some (errors.New "no successful Options.OperationStatuses found")
  /\ asserter.NetworkOptions
       (Some (types.Options.mk asserter_test.operationStatuses []))
     = Some (errors.New "no Options.OperationTypes found").
Proof.
  destruct NetworkOptions_priority as (Hstatuses & Hsuccess & Htypes & _).
  split; [ | split].
  - apply (Hstatuses (types.Options.mk [] [])). reflexivity.
  - apply (Hsuccess (types.Options.mk [types.OperationStatus.mk "FAILURE" false] []));
      [discriminate | ].
    intros s Hin. apply list_elem_of_singleton in Hin. rewrite Hin. reflexivity.
  - apply (Htypes (types.Options.mk asserter_test.operationStatuses [])
                  (types.OperationStatus.mk "SUCCESS" true));
      [apply list_elem_of_here | reflexivity | reflexivity].
Defined.

(** ** The account balance check *)

(** The models answer the tables of account_test.go as listed. *)
Lemma account_tests_pass :
  asserter_test.TestContainsCurrency asserter.containsCurrency = true
  /\ asserter_test.TestContainsAccountIdentifier asserter.containsAccountIdentifier = true
  /\ asserter_test.TestAccoutBalance asserter.AccountBalance = true.
Proof. repeat split; vm_compute; reflexivity. Qed.

(** C4. [AccountBalance] validates in a fixed order. A failing block is
    reported whatever the balances are, an empty hash as
    FieldMissing(Hash). After a valid block and valid earlier entries, an
    entry with a failing account identifier reports that failure whatever
    its amounts and the later entries are; an entry with a passing account
    identifier and two amounts of equal currency reports
    DuplicateCurrencyInBalance whatever the later entries are. With every
    entry valid by itself, two entries of equal account identifier report
    DuplicateAccountIdentifier. The check passes exactly when the block
    passes, every entry is valid by itself and the account identifiers are
    pairwise distinct; the valid block with one balance of one amount
    passes. *)
Theorem AccountBalance_order :
  (forall block balances err,
     asserter.BlockIdentifier block = Some err ->
     asserter.AccountBalance block balances = Some err)
  /\ (forall index balances,
        asserter.AccountBalance (Some (types.BlockIdentifier.mk index "")) balances
        = Some (asserter.FieldMissing "BlockIdentifier.Hash"))
  /\ (forall block before balance after err,
        asserter.BlockIdentifier block = None ->
        Forall validEntry before ->
        asserter.AccountIdentifier (types.Balance.AccountIdentifier balance) = Some err ->
        asserter.AccountBalance block (before ++ balance :: after) = Some err)
  /\ (forall block before balance after i j x y,
        asserter.BlockIdentifier block = None ->
        Forall validEntry before ->
        asserter.AccountIdentifier (types.Balance.AccountIdentifier balance) = None ->
        i <> j ->
        types.Balance.Amounts balance !! i = Some x ->
        types.Balance.Amounts balance !! j = Some y ->
        asserter.currencyDeepEqual (types.Amount.Currency x) (types.Amount.Currency y)
        = true ->
        exists c, c ∈ currenciesOf (types.Balance.Amounts balance)
          /\ asserter.AccountBalance block (before ++ balance :: after)
             = Some (asserter.DuplicateCurrencyInBalance c))
  /\ (forall block balances i j x y,
        asserter.BlockIdentifier block = None ->
        Forall validEntry balances ->
        i <> j ->
        balances !! i = Some x ->
        balances !! j = Some y ->
        asserter.accountIdentifierDeepEqual
          (types.Balance.AccountIdentifier x) (types.Balance.AccountIdentifier y) = true ->
        exists a, a ∈ accountsOf balances
          /\ asserter.AccountBalance block balances
             = Some (asserter.DuplicateAccountIdentifier a))
  /\ (forall block balances,
        asserter.AccountBalance block balances = None
        <-> asserter.BlockIdentifier block = None
            /\ Forall validEntry balances
            /\ NoDup (accountsOf balances))
  /\ asserter.AccountBalance
       (Some (types.BlockIdentifier.mk 1000 "jsakdl"))
       [types.Balance.mk (types.AccountIdentifier.mk "acct1" None)
          [types.Amount.mk "100" (types.Currency.mk "BTC" 8 None)]] = None.
Proof.
  unfold asserter.AccountBalance.
  split; [ | split; [ | split; [ | split; [ | split; [ | split]]]]].
  - intros block balances err ->. reflexivity.
  - intros index balances. reflexivity.
  - intros block before balance after err -> Hbefore Hacc.
    rewrite (assertBalanceEntries_app _ _ Hbefore). simpl. rewrite Hacc. reflexivity.
  - intros block before balance after i j x y -> Hbefore Hacc Hij Hi Hj Heq.
    rewrite (assertBalanceEntries_app _ _ Hbefore). simpl. rewrite Hacc.
    apply currencyDeepEqual_true in Heq.
    destruct (asserter.assertBalanceAmounts [] (types.Balance.Amounts balance))
      as [e|] eqn:E.
    + apply assertBalanceAmounts_Some in E as (c & Hc & ->). eauto.
    + apply assertBalanceAmounts_None in E as [Hnd _]. exfalso.
      apply (not_NoDup_lookup (currenciesOf (types.Balance.Amounts balance))
               i j (types.Amount.Currency x) Hij); [ | | exact Hnd];
        unfold currenciesOf; rewrite list_lookup_fmap.
      * rewrite Hi. reflexivity.
      * rewrite Hj, Heq. reflexivity.
  - intros block balances i j x y -> Hvalid Hij Hi Hj Heq.
    apply assertBalanceEntries_None in Hvalid. rewrite Hvalid.
    apply accountIdentifierDeepEqual_true in Heq.
    destruct (asserter.assertUniqueAccounts [] balances) as [e|] eqn:E.
    + apply assertUniqueAccounts_Some in E as (a & Ha & ->). eauto.
    + apply assertUniqueAccounts_None in E as [Hnd _]. exfalso.
      apply (not_NoDup_lookup (accountsOf balances)
               i j (types.Balance.AccountIdentifier x) Hij); [ | | exact Hnd];
        unfold accountsOf; rewrite list_lookup_fmap.
      * rewrite Hi. reflexivity.
      * rewrite Hj, Heq. reflexivity.
  - intros block balances.
    destruct (asserter.BlockIdentifier block) as [e|];
      [split; [discriminate | intros [H _]; discriminate] | ].
    destruct (asserter.assertBalanceEntries balances) as [e|] eqn:E.
    + split; [discriminate | ]. intros (_ & Hvalid & _).
      apply assertBalanceEntries_None in Hvalid. congruence.
    + apply assertBalanceEntries_None in E. rewrite assertUniqueAccounts_None.
      split; [intros [Hnd _]; auto | ].
      intros (_ & _ & Hnd). split; [exact Hnd | ].
      intros a _ Ha. by apply elem_of_nil in Ha.
  - vm_compute. reflexivity.
Qed.

(** The failing cases of TestAccoutBalance, from [AccountBalance_order]. *)
Lemma AccountBalance_order_witness :
  asserter.AccountBalance asserter_test.invalidBlock
    [types.Balance.mk asserter_test.validIdentifier [asserter_test.validAmount]]
  = Some (errors.New "BlockIdentifier.Hash is missing")
  /\ asserter.AccountBalance asserter_test.validBlock
       [types.Balance.mk asserter_test.invalidIdentifier
          [asserter_test.validAmount; asserter_test.validAmount]]
     = Some (errors.New "Account.Address is missing")
  /\ (exists c,
        asserter.AccountBalance asserter_test.validBlock
          [types.Balance.mk asserter_test.validIdentifier
             [asserter_test.validAmount; asserter_test.validAmount];
           types.Balance.mk asserter_test.validIdentifier [asserter_test.validAmount]]
        = Some (asserter.DuplicateCurrencyInBalance c))
  /\ (exists a,
        asserter.AccountBalance asserter_test.validBlock
          [types.Balance.mk asserter_test.validIdentifier [asserter_test.validAmount];
           types.Balance.mk asserter_test.validIdentifier [asserter_test.validAmount]]
        = Some (asserter.DuplicateAccountIdentifier a)).
Proof.
  destruct AccountBalance_order as (Hblock & _ & Hacct & Hcur & Hdup & _).
  assert (Hvalid : validEntry
            (types.Balance.mk asserter_test.validIdentifier [asserter_test.validAmount])).
  { split; [reflexivity | ]. apply NoDup_singleton. }
  split; [ | split; [ | split]].
  - apply Hblock. reflexivity.
  - apply (Hacct asserter_test.validBlock [] _ []); [reflexivity | constructor | reflexivity].
  - destruct (Hcur asserter_test.validBlock []
                (types.Balance.mk asserter_test.validIdentifier
                   [asserter_test.validAmount; asserter_test.validAmount])
                [types.Balance.mk asserter_test.validIdentifier [asserter_test.validAmount]]
                0%nat 1%nat asserter_test.validAmount asserter_test.validAmount
                eq_refl (Forall_nil_2 _) eq_refl ltac:(discriminate)
                eq_refl eq_refl eq_refl)
      as (c & _ & Hc).
    exists c. exact Hc.
  - destruct (Hdup asserter_test.validBlock
                [types.Balance.mk asserter_test.validIdentifier [asserter_test.validAmount];
                 types.Balance.mk asserter_test.validIdentifier [asserter_test.validAmount]]
                0%nat 1%nat
                (types.Balance.mk asserter_test.validIdentifier [asserter_test.validAmount])
                (types.Balance.mk asserter_test.validIdentifier [asserter_test.validAmount])
                eq_refl
                (Forall_cons_2 _ _ _ Hvalid (Forall_cons_2 _ _ _ Hvalid (Forall_nil_2 _)))
                ltac:(discriminate) eq_refl eq_refl eq_refl)
      as (a & _ & Ha).
    exists a. exact Ha.
Defined.

(** ** The retrying fetcher *)

Module fetcher_facts.

Import go fetcher.

(** A cancelled context ends the turn at the loop condition. *)
Lemma body_cancelled E network account backoff tr e :
  ctx_Err E (List.length tr) = Some e ->
  AccountBalanceRetry_body E network account backoff tr
  = (Returns Break, (tr ++ [CtxErr])%list).
Proof.
  intros Hc. unfold AccountBalanceRetry_body, bind, ctxErr. rewrite Hc. reflexivity.
Qed.

(** A turn that returns from the function returns a nil error. *)
Lemma body_Return E network account backoff tr r tr' :
  AccountBalanceRetry_body E network account backoff tr = (Returns (Return r), tr') ->
  r.2 = None.
Proof.
  unfold AccountBalanceRetry_body, bind, ctxErr.
  destruct (ctx_Err E (List.length tr)); [discriminate | ].
  destruct (AccountBalance E network account (tr ++ [CtxErr])%list)
    as [[[[block balances] [err|]]|v] tr1]; try discriminate.
  - destruct account as [a|]; [ | discriminate].
    unfold callTryAgain, ret.
    destruct (tryAgain E (List.length tr1) _ backoff err) as [[|] b']; discriminate.
  - unfold ret. intros [= <- _]. reflexivity.
Qed.

(** With an account, a turn does not dereference a nil [account]. *)
Lemma body_account_present E network a backoff tr v tr' :
  AccountBalanceRetry_body E network (Some a) backoff tr = (Panics v, tr') ->
  v = nil_pointer_dereference "balance".
Proof.
  unfold AccountBalanceRetry_body, bind, ctxErr.
  destruct (ctx_Err E (List.length tr)); [discriminate | ].
  unfold AccountBalance, UnsafeAccountBalance, bind, callAccountBalance, ret, panic.
  destruct (AccountAPI_AccountBalance E _ _) as [[[b|] derr] [err|]]; simpl;
    try (intros [= <- _]; reflexivity);
    try (unfold callTryAgain;
         destruct (tryAgain E _ _ backoff _) as [[|] b']; discriminate).
  destruct (asserter.AccountBalance _ _); simpl; [ | discriminate].
  unfold callTryAgain.
  destruct (tryAgain E _ _ backoff _) as [[|] b']; discriminate.
Qed.

(** Without an account, a turn whose attempt fails panics on
    [account.Address]. *)
Lemma body_account_nil E network backoff tr block balances err tr' :
  ctx_Err E (List.length tr) = None ->
  AccountBalance E network None (tr ++ [CtxErr])%list
  = (Returns (block, balances, Some err), tr') ->
  AccountBalanceRetry_body E network None backoff tr
  = (Panics (nil_pointer_dereference "account"), tr').
Proof.
  intros Hc Hatt. unfold AccountBalanceRetry_body, bind, ctxErr.
  rewrite Hc, Hatt. reflexivity.
Qed.

Lemma loop_error E fuel network account backoff tr r tr' :
  AccountBalanceRetry_loop E fuel network account backoff tr = Some (Returns r, tr') ->
  r.2 <> None -> r = exhausted.
Proof.
  revert backoff tr. induction fuel as [|fuel IH]; intros backoff tr; simpl;
    [discriminate | ].
  destruct (AccountBalanceRetry_body E network account backoff tr)
    as [[[r0| |b']|v] tr1] eqn:Hbody.
  - intros [= <- _] Herr. apply body_Return in Hbody. contradiction.
  - intros [= <- _] _. reflexivity.
  - apply IH.
  - discriminate.
Qed.

Lemma loop_account_present E fuel network a backoff tr v tr' :
  AccountBalanceRetry_loop E fuel network (Some a) backoff tr = Some (Panics v, tr') ->
  v = nil_pointer_dereference "balance".
Proof.
  revert backoff tr. induction fuel as [|fuel IH]; intros backoff tr; simpl;
    [discriminate | ].
  destruct (AccountBalanceRetry_body E network (Some a) backoff tr)
    as [[[r0| |b']|v0] tr1] eqn:Hbody; try discriminate.
  - apply IH.
  - intros [= <- _]. exact (body_account_present _ _ _ _ _ _ _ Hbody).
Qed.

(** A run that ends within [fuel] turns ends alike with more. *)
Lemma loop_fuel_mono E fuel extra network account backoff tr res :
  AccountBalanceRetry_loop E fuel network account backoff tr = Some res ->
  AccountBalanceRetry_loop E (fuel + extra) network account backoff tr = Some res.
Proof.
  revert backoff tr. induction fuel as [|fuel IH]; intros backoff tr; simpl;
    [discriminate | ].
  destruct (AccountBalanceRetry_body E network account backoff tr)
    as [[[r0| |b']|v] tr1]; auto.
Qed.

Lemma transportCalls_app tr1 tr2 :
  transportCalls (tr1 ++ tr2) = (transportCalls tr1 ++ transportCalls tr2)%list.
Proof. unfold transportCalls. apply omap_app. Qed.

End fetcher_facts.

Import fetcher_facts.

(** C1, as stated, fails: the call whose context is cancelled before the
    first attempt returns the very error of a call that used up its retry
    budget, "exhausted retries for account"; no cancellation error exists. *)
Lemma cancelled_run_returns_exhausted_error :
  fetcher.AccountBalanceRetry fetcher_scenarios.cancelledFromStart 1
    fetcher_scenarios.network (Some fetcher_scenarios.acct1) 0 5 []
  = Some (fetcher.Returns
            (None, [], Some (errors.New "exhausted retries for account")),
          [fetcher.CtxErr])
  /\ fetcher.AccountBalanceRetry fetcher_scenarios.neverCancelled 1
       fetcher_scenarios.network (Some fetcher_scenarios.acct1) 0 0 []
     = Some (fetcher.Returns
               (None, [], Some (errors.New "exhausted retries for account")),
             [fetcher.CtxErr;
              fetcher.TransportCall
                (types.AccountBalanceRequest.mk fetcher_scenarios.network
                   (Some fetcher_scenarios.acct1));
              fetcher.TryAgain "account acct1" fetcher_scenarios.refused]).
Proof. split; reflexivity. Qed.

(** C1, amended. A call of [AccountBalanceRetry] whose context is found
    cancelled before the first attempt makes no transport call and returns
    (nil, nil, "exhausted retries for account"), the error it also returns
    when the retries are used up. *)
Theorem AccountBalanceRetry_cancelled_before_first_attempt
    (E : fetcher.Env) (fuel : nat)
    (network : option types.NetworkIdentifier.t)
    (account : option types.AccountIdentifier.t)
    (maxElapsedTime maxRetries : Z) (tr : list fetcher.event) (e : go.error) :
  fetcher.ctx_Err E (List.length tr) = Some e ->
  fetcher.AccountBalanceRetry E (S fuel) network account maxElapsedTime maxRetries tr
  = Some (fetcher.Returns fetcher.exhausted, (tr ++ [fetcher.CtxErr])%list)
  /\ fetcher.transportCalls (tr ++ [fetcher.CtxErr]) = fetcher.transportCalls tr.
Proof.
  intros Hc. split.
  - unfold fetcher.AccountBalanceRetry. simpl.
    rewrite (body_cancelled _ _ _ _ _ _ Hc). reflexivity.
  - rewrite transportCalls_app. simpl. apply app_nil_r.
Qed.

Lemma AccountBalanceRetry_cancelled_before_first_attempt_witness :
  fetcher.AccountBalanceRetry fetcher_scenarios.cancelledFromStart 1
    fetcher_scenarios.network (Some fetcher_scenarios.acct1) 0 5 []
  = Some (fetcher.Returns fetcher.exhausted, [fetcher.CtxErr])
  /\ fetcher.transportCalls [fetcher.CtxErr] = [].
Proof.
  exact (AccountBalanceRetry_cancelled_before_first_attempt
           fetcher_scenarios.cancelledFromStart 0
           fetcher_scenarios.network (Some fetcher_scenarios.acct1) 0 5 []
           (errors.New "context canceled") eq_refl).
Defined.

(** C3, as stated, fails: after the node refused the one attempt for
    "acct1" and the back-off allowed no retry, the error returned is
    "exhausted retries for account": its text does not hold the address, it
    wraps no cause, and the call for "acct2" returns the same error. *)
Lemma exhausted_error_omits_address_and_cause :
  fetcher.AccountBalanceRetry fetcher_scenarios.neverCancelled 1
    fetcher_scenarios.network (Some fetcher_scenarios.acct1) 0 0 []
  = Some (fetcher.Returns
            (None, [], Some (errors.New "exhausted retries for account")),
          [fetcher.CtxErr;
           fetcher.TransportCall
             (types.AccountBalanceRequest.mk fetcher_scenarios.network
                (Some fetcher_scenarios.acct1));
           fetcher.TryAgain "account acct1" fetcher_scenarios.refused])
  /\ strings.Contains "exhausted retries for account" "acct1" = false
  /\ errors.Unwrap (errors.New "exhausted retries for account") = None
  /\ errors.Unwrap (errors.New "exhausted retries for account")
     <> Some fetcher_scenarios.refused
  /\ (exists tr,
        fetcher.AccountBalanceRetry fetcher_scenarios.neverCancelled 1
          fetcher_scenarios.network (Some fetcher_scenarios.acct2) 0 0 []
        = Some (fetcher.Returns
                  (None, [], Some (errors.New "exhausted retries for account")),
                tr)).
Proof.
  split; [reflexivity | ]. split; [reflexivity | ]. split; [reflexivity | ].
  split; [discriminate | ]. eexists. reflexivity.
Qed.

(** C3, amended. Whenever [AccountBalanceRetry] returns an error, by
    retries used up or by cancellation, the error is the fixed
    [errors.New "exhausted retries for account"]: it names the operation,
    is the same for every account and every last underlying error, and
    wraps no cause; block and balances are nil. *)
Theorem AccountBalanceRetry_error_is_fixed
    (E : fetcher.Env) (fuel : nat)
    (network : option types.NetworkIdentifier.t)
    (account : option types.AccountIdentifier.t)
    (maxElapsedTime maxRetries : Z) (tr tr' : list fetcher.event)
    (r : fetcher.result) (err : go.error) :
  fetcher.AccountBalanceRetry E fuel network account maxElapsedTime maxRetries tr
  = Some (fetcher.Returns r, tr') ->
  r.2 = Some err ->
  err = errors.New "exhausted retries for account"
  /\ errors.Unwrap err = None
  /\ r.1 = (None, []).
Proof.
  intros Hrun Herr. unfold fetcher.AccountBalanceRetry in Hrun.
  apply loop_error in Hrun; [ | congruence].
  subst r. simpl in Herr. injection Herr as <-. repeat split.
Qed.

Lemma AccountBalanceRetry_error_is_fixed_witness :
  fetcher.AccountBalanceRetry fetcher_scenarios.neverCancelled 1
    fetcher_scenarios.network (Some fetcher_scenarios.acct1) 0 0 []
  = Some (fetcher.Returns
            (None, [], Some (errors.New "exhausted retries for account")),
          [fetcher.CtxErr;
           fetcher.TransportCall
             (types.AccountBalanceRequest.mk fetcher_scenarios.network
                (Some fetcher_scenarios.acct1));
           fetcher.TryAgain "account acct1" fetcher_scenarios.refused])
  /\ (errors.New "exhausted retries for account"
      = errors.New "exhausted retries for account"
      /\ errors.Unwrap (errors.New "exhausted retries for account") = None
      /\ (None, []) = (@None types.BlockIdentifier.t, @nil types.Balance.t)).
Proof.
  split; [reflexivity | ].
  exact (AccountBalanceRetry_error_is_fixed
           fetcher_scenarios.neverCancelled 1
           fetcher_scenarios.network (Some fetcher_scenarios.acct1) 0 0 []
           [fetcher.CtxErr;
            fetcher.TransportCall
              (types.AccountBalanceRequest.mk fetcher_scenarios.network
                 (Some fetcher_scenarios.acct1));
            fetcher.TryAgain "account acct1" fetcher_scenarios.refused]
           (None, [], Some (errors.New "exhausted retries for account"))
           (errors.New "exhausted retries for account")
           eq_refl eq_refl).
Defined.

(** C10. [AccountBalanceRetry] needs an account: with a nil [account], a
    turn whose context is not cancelled and whose attempt fails panics on
    [account.Address]; with an account present no run panics there. *)
Theorem AccountBalanceRetry_needs_account :
  (forall (E : fetcher.Env) fuel network maxElapsedTime maxRetries tr
          block balances err tr',
     fetcher.ctx_Err E (List.length tr) = None ->
     fetcher.AccountBalance E network None (tr ++ [fetcher.CtxErr])%list
     = (fetcher.Returns (block, balances, Some err), tr') ->
     fetcher.AccountBalanceRetry E (S fuel) network None maxElapsedTime maxRetries tr
     = Some (fetcher.Panics (fetcher.nil_pointer_dereference "account"), tr'))
  /\ (forall (E : fetcher.Env) fuel network a maxElapsedTime maxRetries tr out tr',
        fetcher.AccountBalanceRetry E fuel network (Some a)
          maxElapsedTime maxRetries tr = Some (out, tr') ->
        out <> fetcher.Panics (fetcher.nil_pointer_dereference "account")).
Proof.
  split.
  - intros E fuel network maxElapsedTime maxRetries tr block balances err tr' Hc Hatt.
    unfold fetcher.AccountBalanceRetry. simpl.
    rewrite (body_account_nil _ _ _ _ _ _ _ _ Hc Hatt). reflexivity.
  - intros E fuel network a maxElapsedTime maxRetries tr out tr' Hrun ->.
    apply loop_account_present in Hrun. discriminate.
Qed.

(** The refusing node: without an account the call panics after its first
    attempt; with "acct1" the same run goes on to [tryAgain] and returns. *)
Lemma AccountBalanceRetry_needs_account_witness :
  fetcher.AccountBalanceRetry fetcher_scenarios.neverCancelled 1
    fetcher_scenarios.network None 0 0 []
  = Some (fetcher.Panics (fetcher.nil_pointer_dereference "account"),
          [fetcher.CtxErr;
           fetcher.TransportCall
             (types.AccountBalanceRequest.mk fetcher_scenarios.network None)])
  /\ fetcher.Returns fetcher.exhausted
     <> fetcher.Panics (fetcher.nil_pointer_dereference "account").
Proof.
  destruct AccountBalanceRetry_needs_account as [Hnil Hpresent].
  split.
  - exact (Hnil fetcher_scenarios.neverCancelled 0%nat fetcher_scenarios.network
             0 0 [] None [] fetcher_scenarios.refused _ eq_refl eq_refl).
  - exact (Hpresent fetcher_scenarios.neverCancelled 1%nat fetcher_scenarios.network
             fetcher_scenarios.acct1 0 0 [] _ _ eq_refl).
Defined.

(** ** The NetworkStatus call *)

(** C8. Once [NetworkStatus] has received a response and read its body:
    with a status code other than 200 the body is decoded as a
    [types.Error] and not as a response, and the decoded error is returned
    in the second result (a body that does not decode returns the decoding
    error alone); only with status code 200 is the body decoded as a
    NetworkStatusResponse. *)
Theorem NetworkStatus_decodes_by_status
    (a : client.APIClient) (ctx : client.Context a)
    (networkStatusRequest : option (client.NetworkStatusRequest a))
    (r : client.Request a) (response : client.Response) (body : string) :
  client.prepareRequest a ctx (client.localVarPath a) networkStatusRequest
    (client.localVarHeaderParams a) = inl r ->
  client.callAPI a ctx r = (Some response, None) ->
  client.Body response = (body, None) ->
  let contentType := client.Header_Get (client.Header response) "Content-Type" in
  let run := client.NetworkStatus a ctx networkStatusRequest in
  (client.StatusCode response <> client.StatusOK ->
     client.decodeCalls run.2 = [client.DecodeError body contentType]
     /\ match client.decode_Error a body contentType with
        | inl v => run.1 = (None, Some v, Some (fmt.Errorf "%+v" [go.ArgError v]))
        | inr err => run.1 = (None, None, Some err)
        end)
  /\ (client.StatusCode response = client.StatusOK ->
      client.decodeCalls run.2 = [client.DecodeNetworkStatusResponse body contentType]
      /\ match client.decode_NetworkStatusResponse a body contentType with
         | inl v => run.1 = (Some v, None, None)
         | inr err => run.1 = (None, None, Some err)
         end)
  /\ (forall b c,
        client.DecodeNetworkStatusResponse b c ∈ run.2 ->
        client.StatusCode response = client.StatusOK).
Proof.
  intros Hprep Hcall Hbody contentType run.
  subst run contentType. unfold client.NetworkStatus.
  rewrite Hprep, Hcall, Hbody.
  case_bool_decide as Hcode.
  - split; [intros _ | split; [intros Hok; contradiction | ]].
    + destruct (client.decode_Error a body _); split; reflexivity.
    + intros b c Hin. exfalso.
      destruct (client.decode_Error a body _); simpl in Hin;
        repeat (apply elem_of_cons in Hin as [Hin | Hin]; [discriminate | ]);
        by apply elem_of_nil in Hin.
  - assert (Hok : client.StatusCode response = client.StatusOK).
    { destruct (decide (client.StatusCode response = client.StatusOK)); tauto. }
    split; [intros Hne; contradiction | split; [intros _ | intros; exact Hok]].
    destruct (client.decode_NetworkStatusResponse a body _); split; reflexivity.
Qed.

(** The node that answers 500 with the JSON of an error, and the node that
    answers 200. *)
Lemma NetworkStatus_decodes_by_status_witness :
  (client.NetworkStatus client_scenarios.failingNode tt None).1
  = (None, Some client_scenarios.signatureInvalid,
     Some (fmt.Errorf "%+v" [go.ArgError client_scenarios.signatureInvalid]))
  /\ client.decodeCalls (client.NetworkStatus client_scenarios.failingNode tt None).2
     = [client.DecodeError client_scenarios.errorBody "application/json"]
  /\ (client.NetworkStatus client_scenarios.healthyNode tt None).1
     = (Some "{}", None, None).
Proof.
  destruct (NetworkStatus_decodes_by_status client_scenarios.failingNode tt None
              "http://localhost:8080/network/status"
              client_scenarios.internalServerError client_scenarios.errorBody
              eq_refl eq_refl eq_refl) as (Hfail & _ & _).
  destruct (NetworkStatus_decodes_by_status client_scenarios.healthyNode tt None
              "http://localhost:8080/network/status"
              client_scenarios.ok "{}"
              eq_refl eq_refl eq_refl) as (_ & Hok & _).
  destruct (Hfail ltac:(discriminate)) as [Hcalls Hres].
  destruct (Hok eq_refl) as [_ Hres'].
  split; [exact Hres | split; [exact Hcalls | exact Hres']].
Defined.

(** C9. The three results of [NetworkStatus] are not exclusive: with a
    status code other than 200 and a body that decodes as a [types.Error],
    the call returns that error in the second result and, in the third, a
    non-nil error that is the [%+v] rendering of it; a failure of the
    transport also returns a non-nil third result, so the test [err != nil]
    answers alike in both cases. *)
Theorem NetworkStatus_domain_error_and_error
    (a : client.APIClient) (ctx : client.Context a)
    (networkStatusRequest : option (client.NetworkStatusRequest a))
    (r : client.Request a) :
  client.prepareRequest a ctx (client.localVarPath a) networkStatusRequest
    (client.localVarHeaderParams a) = inl r ->
  let res := (client.NetworkStatus a ctx networkStatusRequest).1 in
  (forall response body v,
     client.callAPI a ctx r = (Some response, None) ->
     client.Body response = (body, None) ->
     client.StatusCode response <> client.StatusOK ->
     client.decode_Error a body
       (client.Header_Get (client.Header response) "Content-Type") = inl v ->
     res = (None, Some v, Some (fmt.Errorf "%+v" [go.ArgError v]))
     /\ res.1.2 <> None /\ res.2 <> None
     /\ client.errNotNil res = true)
  /\ (forall response err,
        client.callAPI a ctx r = (response, Some err) ->
        res = (None, None, Some err)
        /\ client.errNotNil res = true).
Proof.
  intros Hprep res. subst res. unfold client.NetworkStatus. rewrite Hprep.
  split.
  - intros response body v Hcall Hbody Hcode Hdec.
    rewrite Hcall, Hbody. rewrite bool_decide_eq_true_2 by exact Hcode.
    rewrite Hdec. simpl. repeat split; discriminate.
  - intros response err Hcall. rewrite Hcall.
    destruct response; simpl; split; reflexivity.
Qed.

(** The node that answers 500 with the JSON of an error, and the node that
    cannot be reached: the third result is non-nil in both runs. *)
Lemma NetworkStatus_domain_error_and_error_witness :
  ((client.NetworkStatus client_scenarios.failingNode tt None).1
   = (None, Some client_scenarios.signatureInvalid,
      Some (fmt.Errorf "%+v" [go.ArgError client_scenarios.signatureInvalid]))
   /\ client.errNotNil (client.NetworkStatus client_scenarios.failingNode tt None).1
      = true)
  /\ ((client.NetworkStatus client_scenarios.unreachableNode tt None).1
      = (None, None, Some (errors.New "dial tcp: connection refused"))
      /\ client.errNotNil (client.NetworkStatus client_scenarios.unreachableNode tt None).1
         = true).
Proof.
  split.
  - destruct (NetworkStatus_domain_error_and_error client_scenarios.failingNode tt None
                "http://localhost:8080/network/status" eq_refl) as [Hdomain _].
    destruct (Hdomain client_scenarios.internalServerError
                client_scenarios.errorBody client_scenarios.signatureInvalid
                eq_refl eq_refl ltac:(discriminate) eq_refl)
      as (Hres & _ & _ & Hnotnil).
    split; [exact Hres | exact Hnotnil].
  - destruct (NetworkStatus_domain_error_and_error client_scenarios.unreachableNode
                tt None "http://localhost:8080/network/status" eq_refl)
      as [_ Htransport].
    exact (Htransport None (errors.New "dial tcp: connection refused") eq_refl).
Defined.

(** * Further properties of the fetcher *)

Module fetcher_runs.

Import go fetcher fetcher_turns.

Local Open Scope list_scope.

(** The validated call, by the answer of the transport. *)
Lemma AccountBalance_run E network account tr :
  AccountBalance E network account tr
  = match AccountAPI_AccountBalance E (List.length tr) (request network account) with
    | (_, _, Some e) =>
        (Returns (None, [], Some e), tr ++ [TransportCall (request network account)])
    | (None, _, None) =>
        (Panics (nil_pointer_dereference "balance"),
         tr ++ [TransportCall (request network account)])
    | (Some b, _, None) =>
        match asserter.AccountBalance
                (types.AccountBalanceResponse.BlockIdentifier b)
                (types.AccountBalanceResponse.Balances b) with
        | Some e =>
            (Returns (None, [], Some e),
             tr ++ [TransportCall (request network account)])
        | None =>
            (Returns (types.AccountBalanceResponse.BlockIdentifier b,
                      types.AccountBalanceResponse.Balances b, None),
             tr ++ [TransportCall (request network account)])
        end
    end.
Proof.
  unfold AccountBalance, UnsafeAccountBalance, bind, callAccountBalance, ret, panic,
    request.
  destruct (AccountAPI_AccountBalance E _ _) as [[[b|] d] [e|]]; simpl;
    try reflexivity.
  destruct (asserter.AccountBalance _ _); reflexivity.
Qed.

(** The end of a turn whose attempt failed with [e]: the panic on a nil
    account, or the call of [tryAgain]. *)
Local Ltac failed_attempt E network backoff tr e Hc Hatt Hbody Hlen2 Hassoc Hassoc3 :=
  match type of Hbody with
  | context [match ?account with Some _ => _ | None => _ end] =>
      destruct account as [a|];
      [ unfold callTryAgain, ret in Hbody; rewrite Hlen2, Hassoc3 in Hbody;
        let Hturn := fresh "Hturn" in
        pose proof (turn_retry E network (Some a) backoff tr a e Hc eq_refl Hatt)
          as Hturn;
        unfold fetchMsg in Hturn;
        destruct (tryAgain E (S (S (List.length tr)))
                    ("account " +:+ types.AccountIdentifier.Address a) backoff e)
          as [again b'];
        simpl in Hturn; destruct again; injection Hbody as <- <-; exact Hturn
      | unfold panic in Hbody; rewrite Hassoc in Hbody; injection Hbody as <- <-;
        eapply (turn_nil_account _ _ _ _ _ e); [exact Hc | reflexivity | exact Hatt] ]
  end.

(** Every turn is one of the five cases of [turn]. *)
Lemma body_turn E network account backoff tr :
  turn E network account backoff tr
    (AccountBalanceRetry_body E network account backoff tr).1
    (AccountBalanceRetry_body E network account backoff tr).2.
Proof.
  destruct (AccountBalanceRetry_body E network account backoff tr)
    as [c tr1] eqn:Hbody. simpl.
  unfold AccountBalanceRetry_body, bind, ctxErr in Hbody.
  destruct (ctx_Err E (List.length tr)) as [e|] eqn:Hc.
  { injection Hbody as <- <-. eapply turn_cancelled; eassumption. }
  rewrite AccountBalance_run in Hbody.
  assert (Hlen : List.length (tr ++ [CtxErr]) = S (List.length tr)).
  { rewrite length_app. simpl. lia. }
  rewrite Hlen in Hbody.
  assert (Hlen2 : forall ev, List.length ((tr ++ [CtxErr]) ++ [ev])
                             = S (S (List.length tr))).
  { intros ev. rewrite !length_app. simpl. lia. }
  assert (Hassoc : forall ev, (tr ++ [CtxErr]) ++ [ev] = tr ++ [CtxErr; ev]).
  { intros ev. rewrite <- app_assoc. reflexivity. }
  assert (Hassoc3 : forall ev ev', ((tr ++ [CtxErr]) ++ [ev]) ++ [ev']
                                   = tr ++ [CtxErr; ev; ev']).
  { intros ev ev'. rewrite <- !app_assoc. reflexivity. }
  destruct (AccountAPI_AccountBalance E (S (List.length tr)) (request network account))
    as [[[b|] d] [e|]] eqn:Ht.
  - assert (Hatt : attemptFails E (S (List.length tr)) (request network account) e)
      by (unfold attemptFails; rewrite Ht; reflexivity).
    failed_attempt E network backoff tr e Hc Hatt Hbody Hlen2 Hassoc Hassoc3.
  - destruct (asserter.AccountBalance _ _) as [e|] eqn:Ha.
    + assert (Hatt : attemptFails E (S (List.length tr)) (request network account) e)
        by (unfold attemptFails; rewrite Ht; exact Ha).
      failed_attempt E network backoff tr e Hc Hatt Hbody Hlen2 Hassoc Hassoc3.
    + unfold ret in Hbody. rewrite Hassoc in Hbody. injection Hbody as <- <-.
      eapply turn_success; eassumption.
  - assert (Hatt : attemptFails E (S (List.length tr)) (request network account) e)
      by (unfold attemptFails; rewrite Ht; reflexivity).
    failed_attempt E network backoff tr e Hc Hatt Hbody Hlen2 Hassoc Hassoc3.
  - unfold panic in Hbody. rewrite Hassoc in Hbody. injection Hbody as <- <-.
    eapply turn_nil_response; eassumption.
Qed.

(** The loop, one turn unrolled. *)
Lemma loop_turn E fuel network account backoff tr :
  AccountBalanceRetry_loop E (S fuel) network account backoff tr
  = match (AccountBalanceRetry_body E network account backoff tr).1 with
    | Panics v =>
        Some (Panics v, (AccountBalanceRetry_body E network account backoff tr).2)
    | Returns (Return r) =>
        Some (Returns r, (AccountBalanceRetry_body E network account backoff tr).2)
    | Returns Break =>
        Some (Returns exhausted,
              (AccountBalanceRetry_body E network account backoff tr).2)
    | Returns (Continue backoff') =>
        AccountBalanceRetry_loop E fuel network account backoff'
          (AccountBalanceRetry_body E network account backoff tr).2
    end.
Proof.
  simpl. destruct (AccountBalanceRetry_body E network account backoff tr)
    as [[[r| |b']|v] tr1]; reflexivity.
Qed.

(** A finished run, by its first turn. *)
Lemma loop_cases E fuel network account backoff tr out tr' :
  AccountBalanceRetry_loop E (S fuel) network account backoff tr = Some (out, tr') ->
  exists c tr1,
    turn E network account backoff tr c tr1
    /\ match c with
       | Panics v => out = Panics v /\ tr' = tr1
       | Returns (Return r) => out = Returns r /\ tr' = tr1
       | Returns Break => out = Returns exhausted /\ tr' = tr1
       | Returns (Continue backoff') =>
           AccountBalanceRetry_loop E fuel network account backoff' tr1
           = Some (out, tr')
       end.
Proof.
  rewrite loop_turn. pose proof (body_turn E network account backoff tr) as Hturn.
  destruct (AccountBalanceRetry_body E network account backoff tr) as [c tr1].
  simpl in *. intros Hrun. exists c, tr1. split; [exact Hturn | ].
  destruct c as [[r| |b']|v]; try (injection Hrun as <- <-; split; reflexivity).
  exact Hrun.
Qed.

(** An attempt fails with one error, and a failing attempt is none that
    the asserter passes. *)
Lemma attemptFails_functional E t req e e' :
  attemptFails E t req e -> attemptFails E t req e' -> e = e'.
Proof.
  unfold attemptFails.
  destruct (AccountAPI_AccountBalance E t req) as [[[b|] d] [e0|]];
    intros H1 H2; try contradiction; congruence.
Qed.

Lemma attemptFails_not_passed E t req e b d :
  attemptFails E t req e ->
  AccountAPI_AccountBalance E t req = (Some b, d, None) ->
  asserter.AccountBalance (types.AccountBalanceResponse.BlockIdentifier b)
    (types.AccountBalanceResponse.Balances b) <> None.
Proof. unfold attemptFails. intros Hatt Ht. rewrite Ht in Hatt. congruence. Qed.

Lemma attemptFails_not_nil E t req e d :
  attemptFails E t req e -> AccountAPI_AccountBalance E t req <> (None, d, None).
Proof. unfold attemptFails. intros Hatt Ht. rewrite Ht in Hatt. exact Hatt. Qed.

(** The turn after a passed check of the context, for each answer of the
    node. *)
Lemma turn_of_success E network account backoff tr b d c tr1 :
  ctx_Err E (List.length tr) = None ->
  AccountAPI_AccountBalance E (S (List.length tr)) (request network account)
  = (Some b, d, None) ->
  asserter.AccountBalance (types.AccountBalanceResponse.BlockIdentifier b)
    (types.AccountBalanceResponse.Balances b) = None ->
  turn E network account backoff tr c tr1 ->
  c = Returns (Return (types.AccountBalanceResponse.BlockIdentifier b,
                       types.AccountBalanceResponse.Balances b, None))
  /\ tr1 = tr ++ [CtxErr; TransportCall (request network account)].
Proof.
  intros Hc Ht Ha Hturn. inversion Hturn; subst; try congruence.
  - assert (b0 = b) by congruence. subst b0. split; reflexivity.
  - exfalso. eapply attemptFails_not_passed; eassumption.
  - exfalso. eapply attemptFails_not_passed; eassumption.
Qed.

Lemma turn_of_nil_response E network account backoff tr d c tr1 :
  ctx_Err E (List.length tr) = None ->
  AccountAPI_AccountBalance E (S (List.length tr)) (request network account)
  = (None, d, None) ->
  turn E network account backoff tr c tr1 ->
  c = Panics (nil_pointer_dereference "balance")
  /\ tr1 = tr ++ [CtxErr; TransportCall (request network account)].
Proof.
  intros Hc Ht Hturn. inversion Hturn; subst; try congruence.
  - split; reflexivity.
  - exfalso. eapply attemptFails_not_nil; eassumption.
  - exfalso. eapply attemptFails_not_nil; eassumption.
Qed.

Lemma turn_of_failure E network a backoff tr e c tr1 :
  ctx_Err E (List.length tr) = None ->
  attemptFails E (S (List.length tr)) (request network (Some a)) e ->
  turn E network (Some a) backoff tr c tr1 ->
  c = Returns
        (if (tryAgain E (S (S (List.length tr))) (fetchMsg a) backoff e).1
         then Continue (tryAgain E (S (S (List.length tr))) (fetchMsg a) backoff e).2
         else Break)
  /\ tr1 = tr ++ round (request network (Some a)) (fetchMsg a) e.
Proof.
  intros Hc Hatt Hturn. inversion Hturn; subst; try congruence.
  - exfalso. eapply attemptFails_not_passed; eassumption.
  - exfalso. eapply attemptFails_not_nil; eassumption.
  - match goal with H : Some _ = Some _ |- _ => injection H as <- end.
    match goal with
    | H : attemptFails _ _ _ ?e' |- _ =>
        pose proof (attemptFails_functional _ _ _ _ _ Hatt H); subst e'
    end.
    split; reflexivity.
Qed.

(** The transport calls a turn adds: none when the context is cancelled,
    one otherwise. *)
Lemma turn_transportCalls E network account backoff tr c tr1 :
  turn E network account backoff tr c tr1 ->
  (c = Returns Break /\ transportCalls tr1 = transportCalls tr)
  \/ transportCalls tr1 = transportCalls tr ++ [request network account].
Proof.
  intros Hturn. inversion Hturn; subst; rewrite fetcher_facts.transportCalls_app;
    simpl; [left; split; [reflexivity | apply app_nil_r] | right .. ]; reflexivity.
Qed.

Lemma loop_transportCalls E fuel network account backoff tr out tr' :
  AccountBalanceRetry_loop E fuel network account backoff tr = Some (out, tr') ->
  exists n, (n <= fuel)%nat
    /\ transportCalls tr' = transportCalls tr ++ replicate n (request network account).
Proof.
  revert backoff tr. induction fuel as [|fuel IH]; intros backoff tr Hrun;
    [discriminate | ].
  apply loop_cases in Hrun as (c & tr1 & Hturn & Hc).
  apply turn_transportCalls in Hturn as [[-> Hsame] | Hone].
  - destruct Hc as [_ ->]. exists 0%nat. split; [lia | ].
    rewrite Hsame. simpl. symmetry. apply app_nil_r.
  - destruct c as [[r| |b']|v].
    + destruct Hc as [_ ->]. exists 1%nat. split; [lia | exact Hone].
    + destruct Hc as [_ ->]. exists 1%nat. split; [lia | exact Hone].
    + apply IH in Hc as (n & Hn & Hcalls). exists (S n). split; [lia | ].
      rewrite Hcalls, Hone, <- app_assoc. reflexivity.
    + destruct Hc as [_ ->]. exists 1%nat. split; [lia | exact Hone].
Qed.

(** The trace of a finished run with an account: full rounds, then the
    last turn. *)
Lemma loop_trace E fuel network a backoff tr out tr' :
  AccountBalanceRetry_loop E fuel network (Some a) backoff tr = Some (out, tr') ->
  exists errs final,
    tr' = tr ++ flat_map (round (request network (Some a)) (fetchMsg a)) errs ++ final
    /\ lastTurn (request network (Some a)) (fetchMsg a) out final.
Proof.
  revert backoff tr. induction fuel as [|fuel IH]; intros backoff tr Hrun;
    [discriminate | ].
  apply loop_cases in Hrun as (c & tr1 & Hturn & Hc).
  inversion Hturn; subst.
  - destruct Hc as [-> ->]. exists [], [CtxErr]. split; [reflexivity | ].
    left. split; reflexivity.
  - destruct Hc as [-> ->]. exists [], [CtxErr; TransportCall (request network (Some a))].
    split; [reflexivity | ]. right; left. split; [reflexivity | ]. left. eauto.
  - destruct Hc as [-> ->]. exists [], [CtxErr; TransportCall (request network (Some a))].
    split; [reflexivity | ]. right; left. split; [reflexivity | ]. right. reflexivity.
  - discriminate.
  - match goal with H : Some _ = Some _ |- _ => injection H as <- end.
    destruct (tryAgain E (S (S (List.length tr))) (fetchMsg a) backoff e)
      as [[|] b']; simpl in Hc.
    + apply IH in Hc as (errs & final & -> & Hlast).
      exists (e :: errs), final. split; [ | exact Hlast].
      simpl. rewrite <- !app_assoc. reflexivity.
    + destruct Hc as [-> ->]. exists [], (round (request network (Some a)) (fetchMsg a) e).
      split; [reflexivity | ]. right; right. eauto.
Qed.

(** What a run returns without an error is the node's last answer, and the
    asserter passed it. *)
Lemma loop_validated E fuel network account backoff tr block balances tr' :
  AccountBalanceRetry_loop E fuel network account backoff tr
  = Some (Returns (block, balances, None), tr') ->
  asserter.AccountBalance block balances = None
  /\ exists tr0 b d,
      tr' = tr0 ++ [CtxErr; TransportCall (request network account)]
      /\ ctx_Err E (List.length tr0) = None
      /\ AccountAPI_AccountBalance E (S (List.length tr0)) (request network account)
         = (Some b, d, None)
      /\ block = types.AccountBalanceResponse.BlockIdentifier b
      /\ balances = types.AccountBalanceResponse.Balances b.
Proof.
  revert backoff tr. induction fuel as [|fuel IH]; intros backoff tr Hrun;
    [discriminate | ].
  apply loop_cases in Hrun as (c & tr1 & Hturn & Hc).
  inversion Hturn; subst.
  - destruct Hc as [Hc _]. discriminate.
  - destruct Hc as [[= -> ->] ->]. split; [assumption | ].
    exists tr, b, d. repeat split; assumption.
  - destruct Hc as [Hc _]. discriminate.
  - destruct Hc as [Hc _]. discriminate.
  - destruct (tryAgain E (S (S (List.length tr))) (fetchMsg a) backoff e)
      as [[|] b']; simpl in Hc.
    + exact (IH _ _ Hc).
    + destruct Hc as [Hc _]. discriminate.
Qed.

(** With an account and a node that never answers with neither a response
    nor an error, no run panics. *)
Lemma loop_no_panic E fuel network a backoff tr out tr' :
  (forall t req d, AccountAPI_AccountBalance E t req <> (None, d, None)) ->
  AccountBalanceRetry_loop E fuel network (Some a) backoff tr = Some (out, tr') ->
  exists r, out = Returns r.
Proof.
  intros Hnode. revert backoff tr. induction fuel as [|fuel IH]; intros backoff tr Hrun;
    [discriminate | ].
  apply loop_cases in Hrun as (c & tr1 & Hturn & Hc).
  inversion Hturn; subst.
  - destruct Hc as [-> _]. eauto.
  - destruct Hc as [-> _]. eauto.
  - exfalso. eapply Hnode; eassumption.
  - discriminate.
  - destruct (tryAgain E (S (S (List.length tr))) (fetchMsg a0) backoff e)
      as [[|] b']; simpl in Hc.
    + exact (IH _ _ Hc).
    + destruct Hc as [-> _]. eauto.
Qed.

(** A back-off whose measure drops at every granted retry ends the loop. *)
Lemma loop_terminates E (measure : BackOff E -> nat) network account :
  (forall t msg backoff e,
     (tryAgain E t msg backoff e).1 = true ->
     (measure (tryAgain E t msg backoff e).2 < measure backoff)%nat) ->
  forall n backoff tr,
    (measure backoff <= n)%nat ->
    exists res, AccountBalanceRetry_loop E (S n) network account backoff tr = Some res.
Proof.
  intros Hdrop. induction n as [|n IH]; intros backoff tr Hle.
  - rewrite loop_turn. pose proof (body_turn E network account backoff tr) as Hturn.
    destruct (AccountBalanceRetry_body E network account backoff tr) as [c tr1].
    simpl in *. inversion Hturn; subst; eauto.
    pose proof (Hdrop (S (S (List.length tr))) (fetchMsg a) backoff e) as Hd.
    destruct (tryAgain E (S (S (List.length tr))) (fetchMsg a) backoff e)
      as [[|] b']; simpl in *; [specialize (Hd eq_refl); lia | eauto].
  - rewrite loop_turn. pose proof (body_turn E network account backoff tr) as Hturn.
    destruct (AccountBalanceRetry_body E network account backoff tr) as [c tr1].
    simpl in *. inversion Hturn; subst; eauto.
    pose proof (Hdrop (S (S (List.length tr))) (fetchMsg a) backoff e) as Hd.
    destruct (tryAgain E (S (S (List.length tr))) (fetchMsg a) backoff e)
      as [[|] b']; simpl in *; [ | eauto].
    specialize (Hd eq_refl). apply IH. lia.
Qed.

(** The second result of the transport is never looked at. *)
Lemma body_withDomainError E domainError network account backoff tr :
  match AccountBalanceRetry_body (withDomainError E domainError) network account
          backoff tr,
        AccountBalanceRetry_body E network account backoff tr with
  | (Returns (Return r), tr1), (Returns (Return r'), tr2) => r = r' /\ tr1 = tr2
  | (Returns Break, tr1), (Returns Break, tr2) => tr1 = tr2
  | (Returns (Continue b1), tr1), (Returns (Continue b2), tr2) => b1 = b2 /\ tr1 = tr2
  | (Panics v, tr1), (Panics v', tr2) => v = v' /\ tr1 = tr2
  | _, _ => False
  end.
Proof.
  unfold AccountBalanceRetry_body, bind, ctxErr, AccountBalance, UnsafeAccountBalance,
    bind, callAccountBalance, callTryAgain, ret, panic. simpl.
  destruct (ctx_Err E (List.length tr)); [reflexivity | ].
  destruct (AccountAPI_AccountBalance E _ _) as [[[b|] d] [e|]]; simpl.
  - destruct account; [ | split; reflexivity].
    destruct (tryAgain E _ _ backoff e) as [[|] b']; simpl; auto.
  - destruct (asserter.AccountBalance _ _) as [e|]; simpl; [ | split; reflexivity].
    destruct account; [ | split; reflexivity].
    destruct (tryAgain E _ _ backoff e) as [[|] b']; simpl; auto.
  - destruct account; [ | split; reflexivity].
    destruct (tryAgain E _ _ backoff e) as [[|] b']; simpl; auto.
  - split; reflexivity.
Qed.

Lemma loop_withDomainError E domainError fuel network account backoff tr :
  AccountBalanceRetry_loop (withDomainError E domainError) fuel network account
    backoff tr
  = AccountBalanceRetry_loop E fuel network account backoff tr.
Proof.
  revert backoff tr. induction fuel as [|fuel IH]; intros backoff tr; [reflexivity | ].
  simpl. pose proof (body_withDomainError E domainError network account backoff tr)
    as Hbody.
  destruct (AccountBalanceRetry_body (withDomainError E domainError) network account
              backoff tr) as [[[r| |b1]|v] tr1],
           (AccountBalanceRetry_body E network account backoff tr)
    as [[[r'| |b2]|v'] tr2]; try contradiction.
  - destruct Hbody as [-> ->]. reflexivity.
  - subst tr2. reflexivity.
  - destruct Hbody as [-> ->]. apply IH.
  - destruct Hbody as [-> ->]. reflexivity.
Qed.

End fetcher_runs.

Import fetcher_runs.

(** X1. When the context is not cancelled and the node's first answer
    passes the asserter, [AccountBalanceRetry] returns the block and the
    balances of that answer after one check of the context and one
    transport call; [tryAgain] is not called, whatever the retry bounds. *)
Theorem AccountBalanceRetry_first_attempt_succeeds
    (E : fetcher.Env) (fuel : nat)
    (network : option types.NetworkIdentifier.t)
    (account : option types.AccountIdentifier.t)
    (maxElapsedTime maxRetries : Z) (tr : list fetcher.event)
    (b : types.AccountBalanceResponse.t) (d : option types.Error.t) :
  fetcher.ctx_Err E (List.length tr) = None ->
  fetcher.AccountAPI_AccountBalance E (S (List.length tr))
    (fetcher_turns.request network account) = (Some b, d, None) ->
  asserter.AccountBalance (types.AccountBalanceResponse.BlockIdentifier b)
    (types.AccountBalanceResponse.Balances b) = None ->
  fetcher.AccountBalanceRetry E (S fuel) network account maxElapsedTime maxRetries tr
  = Some (fetcher.Returns (types.AccountBalanceResponse.BlockIdentifier b,
                           types.AccountBalanceResponse.Balances b, None),
          (tr ++ [fetcher.CtxErr;
                  fetcher.TransportCall (fetcher_turns.request network account)])%list).
Proof.
  intros Hc Ht Ha. unfold fetcher.AccountBalanceRetry. rewrite loop_turn.
  pose proof (body_turn E network account
                (fetcher.backoffRetries E maxElapsedTime maxRetries) tr) as Hturn.
  destruct (turn_of_success _ _ _ _ _ _ _ _ _ Hc Ht Ha Hturn) as [-> ->].
  reflexivity.
Qed.

Lemma AccountBalanceRetry_first_attempt_succeeds_witness :
  fetcher.AccountBalanceRetry
    (fetcher_turns.answeringWith (Some fetcher_turns.goodResponse)) 1
    fetcher_scenarios.network (Some fetcher_scenarios.acct1) 0 5 []
  = Some (fetcher.Returns
            (Some (types.BlockIdentifier.mk 1000 "jsakdl"),
             types.AccountBalanceResponse.Balances fetcher_turns.goodResponse, None),
          [fetcher.CtxErr;
           fetcher.TransportCall
             (fetcher_turns.request fetcher_scenarios.network
                (Some fetcher_scenarios.acct1))]).
Proof.
  exact (AccountBalanceRetry_first_attempt_succeeds
           (fetcher_turns.answeringWith (Some fetcher_turns.goodResponse)) 0
           fetcher_scenarios.network (Some fetcher_scenarios.acct1) 0 5 []
           fetcher_turns.goodResponse None eq_refl eq_refl eq_refl).
Defined.

(** X2. A failed attempt, be it an error of the transport or a response
    that the asserter rejects, is not returned: with an account,
    [AccountBalanceRetry] hands the error to [tryAgain] with the message
    "account <address>"; if [tryAgain] grants a retry the loop goes on with
    the back-off it left, otherwise the call returns "exhausted retries for
    account". *)
Theorem AccountBalanceRetry_failed_attempt_asks_tryAgain
    (E : fetcher.Env) (fuel : nat)
    (network : option types.NetworkIdentifier.t) (a : types.AccountIdentifier.t)
    (maxElapsedTime maxRetries : Z) (tr : list fetcher.event) (e : go.error) :
  fetcher.ctx_Err E (List.length tr) = None ->
  fetcher_turns.attemptFails E (S (List.length tr))
    (fetcher_turns.request network (Some a)) e ->
  let asked :=
    fetcher.tryAgain E (S (S (List.length tr))) (fetcher_turns.fetchMsg a)
      (fetcher.backoffRetries E maxElapsedTime maxRetries) e in
  let tr' :=
    (tr ++ fetcher_turns.round (fetcher_turns.request network (Some a))
             (fetcher_turns.fetchMsg a) e)%list in
  fetcher.AccountBalanceRetry E (S fuel) network (Some a) maxElapsedTime maxRetries tr
  = if asked.1
    then fetcher.AccountBalanceRetry_loop E fuel network (Some a) asked.2 tr'
    else Some (fetcher.Returns fetcher.exhausted, tr').
Proof.
  intros Hc Hatt asked tr'. subst asked tr'.
  unfold fetcher.AccountBalanceRetry. rewrite loop_turn.
  pose proof (body_turn E network (Some a)
                (fetcher.backoffRetries E maxElapsedTime maxRetries) tr) as Hturn.
  destruct (turn_of_failure _ _ _ _ _ _ _ _ Hc Hatt Hturn) as [-> ->].
  destruct (fetcher.tryAgain E _ _ _ e) as [[|] b']; reflexivity.
Qed.

(** A node whose every answer has a block without hash, and a back-off of
    one retry: the request is sent twice, [tryAgain] is asked twice with
    the asserter's error, and the call returns "exhausted retries for
    account". *)
Lemma AccountBalanceRetry_failed_attempt_asks_tryAgain_witness :
  fetcher.AccountBalanceRetry
    (fetcher_turns.answeringWith (Some fetcher_turns.badResponse)) 2
    fetcher_scenarios.network (Some fetcher_scenarios.acct1) 0 1 []
  = Some (fetcher.Returns fetcher.exhausted,
          (fetcher_turns.round
             (fetcher_turns.request fetcher_scenarios.network
                (Some fetcher_scenarios.acct1))
             "account acct1" (errors.New "BlockIdentifier.Hash is missing")
           ++ fetcher_turns.round
                (fetcher_turns.request fetcher_scenarios.network
                   (Some fetcher_scenarios.acct1))
                "account acct1" (errors.New "BlockIdentifier.Hash is missing"))%list).
Proof.
  exact (AccountBalanceRetry_failed_attempt_asks_tryAgain
           (fetcher_turns.answeringWith (Some fetcher_turns.badResponse)) 1
           fetcher_scenarios.network fetcher_scenarios.acct1 0 1 []
           (errors.New "BlockIdentifier.Hash is missing") eq_refl eq_refl).
Defined.

(** X3. The trace of a finished call with an account: a number of full
    rounds (check of the context, transport call, [tryAgain] with the
    message "account <address>"), then the last turn: the check alone
    (cancelled, "exhausted retries" returned), check and transport call (a
    result without error, or the panic on a nil response), or a full round
    that [tryAgain] declined ("exhausted retries" returned). *)
Theorem AccountBalanceRetry_trace
    (E : fetcher.Env) (fuel : nat)
    (network : option types.NetworkIdentifier.t) (a : types.AccountIdentifier.t)
    (maxElapsedTime maxRetries : Z) (tr tr' : list fetcher.event)
    (out : fetcher.outcome fetcher.result) :
  fetcher.AccountBalanceRetry E fuel network (Some a) maxElapsedTime maxRetries tr
  = Some (out, tr') ->
  exists errs final,
    tr' = (tr ++ flat_map (fetcher_turns.round (fetcher_turns.request network (Some a))
                             (fetcher_turns.fetchMsg a)) errs ++ final)%list
    /\ fetcher_turns.lastTurn (fetcher_turns.request network (Some a))
         (fetcher_turns.fetchMsg a) out final.
Proof. apply loop_trace. Qed.

Lemma AccountBalanceRetry_trace_witness :
  exists errs final,
    (fetcher_turns.round
       (fetcher_turns.request fetcher_scenarios.network (Some fetcher_scenarios.acct1))
       "account acct1" (errors.New "BlockIdentifier.Hash is missing")
     ++ fetcher_turns.round
          (fetcher_turns.request fetcher_scenarios.network
             (Some fetcher_scenarios.acct1))
          "account acct1" (errors.New "BlockIdentifier.Hash is missing"))%list
    = ([] ++ flat_map (fetcher_turns.round
                         (fetcher_turns.request fetcher_scenarios.network
                            (Some fetcher_scenarios.acct1))
                         (fetcher_turns.fetchMsg fetcher_scenarios.acct1)) errs
          ++ final)%list
    /\ fetcher_turns.lastTurn
         (fetcher_turns.request fetcher_scenarios.network (Some fetcher_scenarios.acct1))
         (fetcher_turns.fetchMsg fetcher_scenarios.acct1)
         (fetcher.Returns fetcher.exhausted) final.
Proof.
  exact (AccountBalanceRetry_trace
           (fetcher_turns.answeringWith (Some fetcher_turns.badResponse)) 2
           fetcher_scenarios.network fetcher_scenarios.acct1 0 1 [] _ _ eq_refl).
Defined.

(** X4. Every transport call of [AccountBalanceRetry] sends the same
    request, the network and account it was called with, and a call that
    ends within [fuel] turns makes at most [fuel] transport calls. *)
Theorem AccountBalanceRetry_same_request
    (E : fetcher.Env) (fuel : nat)
    (network : option types.NetworkIdentifier.t)
    (account : option types.AccountIdentifier.t)
    (maxElapsedTime maxRetries : Z) (tr tr' : list fetcher.event)
    (out : fetcher.outcome fetcher.result) :
  fetcher.AccountBalanceRetry E fuel network account maxElapsedTime maxRetries tr
  = Some (out, tr') ->
  exists n, (n <= fuel)%nat
    /\ fetcher.transportCalls tr'
       = (fetcher.transportCalls tr
          ++ replicate n (types.AccountBalanceRequest.mk network account))%list.
Proof. apply loop_transportCalls. Qed.

Lemma AccountBalanceRetry_same_request_witness :
  exists n, (n <= 2)%nat
    /\ fetcher.transportCalls
         (fetcher_turns.round
            (fetcher_turns.request fetcher_scenarios.network
               (Some fetcher_scenarios.acct1))
            "account acct1" (errors.New "BlockIdentifier.Hash is missing")
          ++ fetcher_turns.round
               (fetcher_turns.request fetcher_scenarios.network
                  (Some fetcher_scenarios.acct1))
               "account acct1" (errors.New "BlockIdentifier.Hash is missing"))
       = ([] ++ replicate n
                  (types.AccountBalanceRequest.mk fetcher_scenarios.network
                     (Some fetcher_scenarios.acct1)))%list.
Proof.
  exact (AccountBalanceRetry_same_request
           (fetcher_turns.answeringWith (Some fetcher_turns.badResponse)) 2
           fetcher_scenarios.network (Some fetcher_scenarios.acct1) 0 1 [] _ _ eq_refl).
Defined.

(** X5. The structured error the transport returns as its second result is
    never looked at: replacing it, at every call, by any other value leaves
    the whole run of [AccountBalanceRetry] unchanged (result and trace). *)
Theorem AccountBalanceRetry_ignores_domain_error
    (E : fetcher.Env)
    (domainError : nat -> types.AccountBalanceRequest.t -> option types.Error.t)
    (fuel : nat)
    (network : option types.NetworkIdentifier.t)
    (account : option types.AccountIdentifier.t)
    (maxElapsedTime maxRetries : Z) (tr : list fetcher.event) :
  fetcher.AccountBalanceRetry (fetcher_turns.withDomainError E domainError)
    fuel network account maxElapsedTime maxRetries tr
  = fetcher.AccountBalanceRetry E fuel network account maxElapsedTime maxRetries tr.
Proof. apply loop_withDomainError. Qed.

(** X6. [AccountBalanceRetry] ends whenever the back-off does: if some
    measure of the back-off drops each time [tryAgain] grants a retry, the
    call ends within (measure of the initial back-off + 1) turns, having
    made at most that many transport calls. *)
Theorem AccountBalanceRetry_terminates
    (E : fetcher.Env) (measure : fetcher.BackOff E -> nat)
    (network : option types.NetworkIdentifier.t)
    (account : option types.AccountIdentifier.t)
    (maxElapsedTime maxRetries : Z) (tr : list fetcher.event) :
  (forall t msg backoff e,
     (fetcher.tryAgain E t msg backoff e).1 = true ->
     (measure (fetcher.tryAgain E t msg backoff e).2 < measure backoff)%nat) ->
  let turns := S (measure (fetcher.backoffRetries E maxElapsedTime maxRetries)) in
  exists out tr',
    fetcher.AccountBalanceRetry E turns network account maxElapsedTime maxRetries tr
    = Some (out, tr')
    /\ (List.length (fetcher.transportCalls tr')
        <= List.length (fetcher.transportCalls tr) + turns)%nat.
Proof.
  intros Hdrop turns. subst turns. unfold fetcher.AccountBalanceRetry.
  destruct (loop_terminates E measure network account Hdrop
              (measure (fetcher.backoffRetries E maxElapsedTime maxRetries))
              (fetcher.backoffRetries E maxElapsedTime maxRetries) tr (le_n _))
    as [[out tr'] Hrun].
  exists out, tr'. split; [exact Hrun | ].
  apply loop_transportCalls in Hrun as (n & Hn & ->).
  rewrite length_app, length_replicate. lia.
Qed.

(** The refusing node with the counting back-off and three retries: the
    call ends within four turns. *)
Lemma AccountBalanceRetry_terminates_witness :
  exists out tr',
    fetcher.AccountBalanceRetry fetcher_scenarios.neverCancelled 4
      fetcher_scenarios.network (Some fetcher_scenarios.acct1) 0 3 []
    = Some (out, tr')
    /\ (List.length (fetcher.transportCalls tr') <= 0 + 4)%nat.
Proof.
  apply (AccountBalanceRetry_terminates fetcher_scenarios.neverCancelled
           (fun left : nat => left)
           fetcher_scenarios.network (Some fetcher_scenarios.acct1) 0 3 []).
  intros t msg backoff e. destruct backoff as [|left]; simpl; [discriminate | lia].
Defined.

(** X7. A transport that answers with neither a response nor an error
    makes the fetcher panic: [UnsafeAccountBalance] dereferences the nil
    response, and so do [AccountBalance] and the first attempt of
    [AccountBalanceRetry], each after its one transport call. *)
Theorem nil_response_panics
    (E : fetcher.Env)
    (network : option types.NetworkIdentifier.t)
    (account : option types.AccountIdentifier.t)
    (tr : list fetcher.event) (d : option types.Error.t) :
  (fetcher.AccountAPI_AccountBalance E (List.length tr)
     (fetcher_turns.request network account) = (None, d, None) ->
   fetcher.UnsafeAccountBalance E network account tr
   = (fetcher.Panics (fetcher.nil_pointer_dereference "balance"),
      (tr ++ [fetcher.TransportCall (fetcher_turns.request network account)])%list)
   /\ fetcher.AccountBalance E network account tr
      = (fetcher.Panics (fetcher.nil_pointer_dereference "balance"),
         (tr ++ [fetcher.TransportCall (fetcher_turns.request network account)])%list))
  /\ (forall fuel maxElapsedTime maxRetries,
        fetcher.ctx_Err E (List.length tr) = None ->
        fetcher.AccountAPI_AccountBalance E (S (List.length tr))
          (fetcher_turns.request network account) = (None, d, None) ->
        fetcher.AccountBalanceRetry E (S fuel) network account
          maxElapsedTime maxRetries tr
        = Some (fetcher.Panics (fetcher.nil_pointer_dereference "balance"),
                (tr ++ [fetcher.CtxErr;
                        fetcher.TransportCall
                          (fetcher_turns.request network account)])%list)).
Proof.
  split.
  - intros Ht. split.
    + unfold fetcher.UnsafeAccountBalance, fetcher.bind, fetcher.callAccountBalance.
      unfold fetcher_turns.request in Ht. rewrite Ht. reflexivity.
    + rewrite AccountBalance_run, Ht. reflexivity.
  - intros fuel maxElapsedTime maxRetries Hc Ht.
    unfold fetcher.AccountBalanceRetry. rewrite loop_turn.
    pose proof (body_turn E network account
                  (fetcher.backoffRetries E maxElapsedTime maxRetries) tr) as Hturn.
    destruct (turn_of_nil_response _ _ _ _ _ _ _ _ Hc Ht Hturn) as [-> ->].
    reflexivity.
Qed.

Lemma nil_response_panics_witness :
  fetcher.AccountBalance (fetcher_turns.answeringWith None)
    fetcher_scenarios.network (Some fetcher_scenarios.acct1) []
  = (fetcher.Panics (fetcher.nil_pointer_dereference "balance"),
     [fetcher.TransportCall
        (fetcher_turns.request fetcher_scenarios.network (Some fetcher_scenarios.acct1))])
  /\ fetcher.AccountBalanceRetry (fetcher_turns.answeringWith None) 1
       fetcher_scenarios.network (Some fetcher_scenarios.acct1) 0 5 []
     = Some (fetcher.Panics (fetcher.nil_pointer_dereference "balance"),
             [fetcher.CtxErr;
              fetcher.TransportCall
                (fetcher_turns.request fetcher_scenarios.network
                   (Some fetcher_scenarios.acct1))]).
Proof.
  destruct (nil_response_panics (fetcher_turns.answeringWith None)
              fetcher_scenarios.network (Some fetcher_scenarios.acct1) [] None)
    as [Hcall Hretry].
  split.
  - exact (proj2 (Hcall eq_refl)).
  - exact (Hretry 0%nat 0 5 eq_refl eq_refl).
Defined.

(** X8. With an account, and a transport that never answers with neither a
    response nor an error, no run of [AccountBalanceRetry] panics: every
    finished run returns. *)
Theorem AccountBalanceRetry_no_panic
    (E : fetcher.Env) (fuel : nat)
    (network : option types.NetworkIdentifier.t) (a : types.AccountIdentifier.t)
    (maxElapsedTime maxRetries : Z) (tr tr' : list fetcher.event)
    (out : fetcher.outcome fetcher.result) :
  (forall t req d, fetcher.AccountAPI_AccountBalance E t req <> (None, d, None)) ->
  fetcher.AccountBalanceRetry E fuel network (Some a) maxElapsedTime maxRetries tr
  = Some (out, tr') ->
  exists r, out = fetcher.Returns r.
Proof. intros Hnode. apply loop_no_panic. exact Hnode. Qed.

Lemma AccountBalanceRetry_no_panic_witness :
  exists r, fetcher.Returns fetcher.exhausted = fetcher.Returns r.
Proof.
  apply (AccountBalanceRetry_no_panic fetcher_scenarios.neverCancelled 4
           fetcher_scenarios.network fetcher_scenarios.acct1 0 3 []
           (fetcher_turns.round
              (fetcher_turns.request fetcher_scenarios.network
                 (Some fetcher_scenarios.acct1))
              "account acct1" fetcher_scenarios.refused
            ++ fetcher_turns.round
                 (fetcher_turns.request fetcher_scenarios.network
                    (Some fetcher_scenarios.acct1))
                 "account acct1" fetcher_scenarios.refused
            ++ fetcher_turns.round
                 (fetcher_turns.request fetcher_scenarios.network
                    (Some fetcher_scenarios.acct1))
                 "account acct1" fetcher_scenarios.refused
            ++ fetcher_turns.round
                 (fetcher_turns.request fetcher_scenarios.network
                    (Some fetcher_scenarios.acct1))
                 "account acct1" fetcher_scenarios.refused)%list).
  - intros t req d. discriminate.
  - reflexivity.
Defined.

(** X9. Whatever [AccountBalanceRetry] returns without an error has passed
    the asserter, and it is the block and the balances of the node's last
    answer, unchanged: the last two events of the trace are a check of the
    context that found it live and the transport call that was answered. *)
Theorem AccountBalanceRetry_success_is_validated
    (E : fetcher.Env) (fuel : nat)
    (network : option types.NetworkIdentifier.t)
    (account : option types.AccountIdentifier.t)
    (maxElapsedTime maxRetries : Z) (tr tr' : list fetcher.event)
    (block : option types.BlockIdentifier.t) (balances : list types.Balance.t) :
  fetcher.AccountBalanceRetry E fuel network account maxElapsedTime maxRetries tr
  = Some (fetcher.Returns (block, balances, None), tr') ->
  asserter.AccountBalance block balances = None
  /\ exists tr0 b d,
      tr' = (tr0 ++ [fetcher.CtxErr;
                     fetcher.TransportCall (fetcher_turns.request network account)])%list
      /\ fetcher.ctx_Err E (List.length tr0) = None
      /\ fetcher.AccountAPI_AccountBalance E (S (List.length tr0))
           (fetcher_turns.request network account) = (Some b, d, None)
      /\ block = types.AccountBalanceResponse.BlockIdentifier b
      /\ balances = types.AccountBalanceResponse.Balances b.
Proof. apply loop_validated. Qed.

Lemma AccountBalanceRetry_success_is_validated_witness :
  asserter.AccountBalance (Some (types.BlockIdentifier.mk 1000 "jsakdl"))
    (types.AccountBalanceResponse.Balances fetcher_turns.goodResponse) = None.
Proof.
  exact (proj1 (AccountBalanceRetry_success_is_validated
                  (fetcher_turns.answeringWith (Some fetcher_turns.goodResponse)) 1
                  fetcher_scenarios.network (Some fetcher_scenarios.acct1) 0 5 []
                  [fetcher.CtxErr;
                   fetcher.TransportCall
                     (fetcher_turns.request fetcher_scenarios.network
                        (Some fetcher_scenarios.acct1))]
                  (Some (types.BlockIdentifier.mk 1000 "jsakdl"))
                  (types.AccountBalanceResponse.Balances fetcher_turns.goodResponse)
                  eq_refl)).
Defined.

(** X10. [AccountBalance] is [UnsafeAccountBalance] followed by the
    asserter: both make exactly one transport call; [AccountBalance] never
    returns a block or balances together with an error, returns data only
    if the asserter passes them, and then returns what
    [UnsafeAccountBalance] returns. *)
Theorem AccountBalance_validates_unsafe
    (E : fetcher.Env)
    (network : option types.NetworkIdentifier.t)
    (account : option types.AccountIdentifier.t)
    (tr : list fetcher.event) :
  (fetcher.UnsafeAccountBalance E network account tr).2
  = (tr ++ [fetcher.TransportCall (fetcher_turns.request network account)])%list
  /\ (fetcher.AccountBalance E network account tr).2
     = (tr ++ [fetcher.TransportCall (fetcher_turns.request network account)])%list
  /\ (forall block balances err,
        (fetcher.AccountBalance E network account tr).1
        = fetcher.Returns (block, balances, Some err) ->
        block = None /\ balances = [])
  /\ (forall block balances,
        (fetcher.AccountBalance E network account tr).1
        = fetcher.Returns (block, balances, None) ->
        asserter.AccountBalance block balances = None
        /\ (fetcher.UnsafeAccountBalance E network account tr).1
           = fetcher.Returns (block, balances, None))
  /\ (forall block balances,
        (fetcher.UnsafeAccountBalance E network account tr).1
        = fetcher.Returns (block, balances, None) ->
        (fetcher.AccountBalance E network account tr).1
        = match asserter.AccountBalance block balances with
          | Some err => fetcher.Returns (None, [], Some err)
          | None => fetcher.Returns (block, balances, None)
          end).
Proof.
  rewrite AccountBalance_run.
  unfold fetcher.UnsafeAccountBalance, fetcher.bind, fetcher.callAccountBalance,
    fetcher.ret, fetcher.panic, fetcher_turns.request.
  destruct (fetcher.AccountAPI_AccountBalance E _ _) as [[[b|] d] [e|]]; simpl.
  - repeat split; try discriminate; congruence.
  - destruct (asserter.AccountBalance _ _) as [e|] eqn:Ha; simpl.
    + repeat split; try discriminate; try congruence.
      intros block balances [= <- <-]. rewrite Ha. reflexivity.
    + repeat split; try discriminate; try congruence.
      intros block balances [= <- <-]. rewrite Ha. reflexivity.
  - repeat split; try discriminate; congruence.
  - repeat split; discriminate.
Qed.

Lemma AccountBalance_validates_unsafe_witness :
  (fetcher.UnsafeAccountBalance
     (fetcher_turns.answeringWith (Some fetcher_turns.badResponse))
     fetcher_scenarios.network (Some fetcher_scenarios.acct1) []).1
  = fetcher.Returns (Some (types.BlockIdentifier.mk 1 ""),
                     types.AccountBalanceResponse.Balances fetcher_turns.badResponse,
                     None)
  /\ (fetcher.AccountBalance
        (fetcher_turns.answeringWith (Some fetcher_turns.badResponse))
        fetcher_scenarios.network (Some fetcher_scenarios.acct1) []).1
     = fetcher.Returns (None, [], Some (errors.New "BlockIdentifier.Hash is missing")).
Proof.
  split; [reflexivity | ].
  destruct (AccountBalance_validates_unsafe
              (fetcher_turns.answeringWith (Some fetcher_turns.badResponse))
              fetcher_scenarios.network (Some fetcher_scenarios.acct1) [])
    as (_ & _ & _ & _ & Hcompose).
  exact (Hcompose (Some (types.BlockIdentifier.mk 1 ""))
           (types.AccountBalanceResponse.Balances fetcher_turns.badResponse) eq_refl).
Defined.

(** * Further properties of the NetworkStatus call *)

(** X11. The three results of [NetworkStatus] in every run: a response
    comes with neither a [types.Error] nor an error; a [types.Error] comes
    without a response and with the error that renders it with [%+v]. *)
Theorem NetworkStatus_results_exclusive
    (a : client.APIClient) (ctx : client.Context a)
    (networkStatusRequest : option (client.NetworkStatusRequest a)) :
  let res := (client.NetworkStatus a ctx networkStatusRequest).1 in
  (forall response, res.1.1 = Some response -> res.1.2 = None /\ res.2 = None)
  /\ (forall v, res.1.2 = Some v ->
        res.1.1 = None /\ res.2 = Some (fmt.Errorf "%+v" [go.ArgError v])).
Proof.
  unfold client.NetworkStatus.
  destruct (client.prepareRequest a ctx _ _ _) as [r|e]; simpl;
    [ | split; intros; discriminate].
  destruct (client.callAPI a ctx r) as [[response|] [e|]]; simpl;
    try (split; intros; discriminate).
  destruct (client.Body response) as [body [e|]]; simpl;
    [split; intros; discriminate | ].
  case_bool_decide.
  - destruct (client.decode_Error a body _) as [v|e]; simpl;
      [ | split; intros; discriminate].
    split; [intros; discriminate | ]. intros v' [= <-]. split; reflexivity.
  - destruct (client.decode_NetworkStatusResponse a body _) as [v|e]; simpl;
      [ | split; intros; discriminate].
    split; [ | intros; discriminate]. intros; split; reflexivity.
Qed.

Lemma NetworkStatus_results_exclusive_witness :
  (client.NetworkStatus client_scenarios.failingNode tt None).1.1.1 = None
  /\ (client.NetworkStatus client_scenarios.failingNode tt None).1.2
     = Some (fmt.Errorf "%+v" [go.ArgError client_scenarios.signatureInvalid]).
Proof.
  exact (proj2 (NetworkStatus_results_exclusive client_scenarios.failingNode tt None)
           client_scenarios.signatureInvalid eq_refl).
Defined.

(** X12. [NetworkStatus] returns three nil results, no response and no
    error of either kind, exactly when the request was prepared and
    [callAPI] returned neither a response nor an error. *)
Theorem NetworkStatus_all_nil
    (a : client.APIClient) (ctx : client.Context a)
    (networkStatusRequest : option (client.NetworkStatusRequest a)) :
  (client.NetworkStatus a ctx networkStatusRequest).1 = (None, None, None)
  <-> exists r,
        client.prepareRequest a ctx (client.localVarPath a) networkStatusRequest
          (client.localVarHeaderParams a) = inl r
        /\ client.callAPI a ctx r = (None, None).
Proof.
  unfold client.NetworkStatus.
  destruct (client.prepareRequest a ctx _ _ _) as [r|e]; simpl.
  2:{ split; [discriminate | intros (r & Hr & _); discriminate]. }
  destruct (client.callAPI a ctx r) as [[response|] [e|]] eqn:Hcall; simpl.
  - split; [discriminate | intros (r' & [= <-] & Hr); congruence].
  - split; [ | intros (r' & [= <-] & Hr); congruence].
    destruct (client.Body response) as [body [e|]]; simpl; [discriminate | ].
    case_bool_decide.
    + destruct (client.decode_Error a body _); discriminate.
    + destruct (client.decode_NetworkStatusResponse a body _); discriminate.
  - split; [discriminate | intros (r' & [= <-] & Hr); congruence].
  - split; [intros _; eauto | reflexivity].
Qed.

Lemma NetworkStatus_all_nil_witness :
  (client.NetworkStatus (client_scenarios.answering (None, None)) tt None).1
  = (None, None, None).
Proof.
  apply (proj2 (NetworkStatus_all_nil (client_scenarios.answering (None, None)) tt None)).
  exists "http://localhost:8080/network/status". split; reflexivity.
Defined.

(** X13. The calls of a run of [NetworkStatus], in order: the request is
    prepared once, with the path and the header map of the call; [callAPI]
    follows only a prepared request; the body is read only from a response
    that came without an error; at most one [decode] follows, only after a
    read without error, at [types.Error] for a status other than 200 and at
    the response type for 200; and the body is closed, last, exactly when
    it was read. *)
Theorem NetworkStatus_trace_shape
    (a : client.APIClient) (ctx : client.Context a)
    (networkStatusRequest : option (client.NetworkStatusRequest a)) :
  let tr := (client.NetworkStatus a ctx networkStatusRequest).2 in
  let prepared :=
    client.prepareRequest a ctx (client.localVarPath a) networkStatusRequest
      (client.localVarHeaderParams a) in
  let prepare :=
    client.PrepareRequest (client.localVarPath a) (client.localVarHeaderParams a) in
  (tr = [prepare] /\ exists e, prepared = inr e)
  \/ (tr = [prepare; client.CallAPI]
      /\ exists r response e,
           prepared = inl r
           /\ (client.callAPI a ctx r = (response, Some e)
               \/ client.callAPI a ctx r = (None, None)))
  \/ (exists r response,
        prepared = inl r /\ client.callAPI a ctx r = (Some response, None)
        /\ ((tr = [prepare; client.CallAPI; client.ReadAll; client.BodyClose]
             /\ (client.Body response).2 <> None)
            \/ (tr = [prepare; client.CallAPI; client.ReadAll;
                      client.DecodeError (client.Body response).1
                        (client.Header_Get (client.Header response) "Content-Type");
                      client.BodyClose]
                /\ (client.Body response).2 = None
                /\ client.StatusCode response <> client.StatusOK)
            \/ (tr = [prepare; client.CallAPI; client.ReadAll;
                      client.DecodeNetworkStatusResponse (client.Body response).1
                        (client.Header_Get (client.Header response) "Content-Type");
                      client.BodyClose]
                /\ (client.Body response).2 = None
                /\ client.StatusCode response = client.StatusOK))).
Proof.
  unfold client.NetworkStatus.
  destruct (client.prepareRequest a ctx _ _ _) as [r|e]; simpl;
    [ | left; eauto].
  destruct (client.callAPI a ctx r) as [[response|] [e|]] eqn:Hcall; simpl.
  - right; left. split; [reflexivity | ]. exists r, (Some response), e. eauto.
  - right; right. exists r, response. split; [reflexivity | ]. split; [exact Hcall | ].
    destruct (client.Body response) as [body [e|]]; simpl.
    + left. split; [reflexivity | discriminate].
    + case_bool_decide as Hcode.
      * right; left.
        destruct (client.decode_Error a body _); simpl; repeat split; assumption.
      * right; right.
        assert (Hok : client.StatusCode response = client.StatusOK).
        { destruct (decide (client.StatusCode response = client.StatusOK)); tauto. }
        destruct (client.decode_NetworkStatusResponse a body _); simpl;
          repeat split; assumption.
  - right; left. split; [reflexivity | ]. exists r, None, e. eauto.
  - right; left. split; [reflexivity | ].
    exists r, None, (errors.New ""). eauto.
Qed.

(** X14. The header map that [NetworkStatus] hands to [prepareRequest]
    holds at most the keys "Content-Type" and "Accept", each with what the
    selector returned for ["application/json"], and without the key when
    the selector returned the empty string. *)
Theorem localVarHeaderParams_lookup (a : client.APIClient) (key : string) :
  client.localVarHeaderParams a !! key
  = if bool_decide (key = "Accept")
    then (if bool_decide (client.selectHeaderAccept a ["application/json"] = "")
          then None
          else Some (client.selectHeaderAccept a ["application/json"]))
    else if bool_decide (key = "Content-Type")
    then (if bool_decide (client.selectHeaderContentType a ["application/json"] = "")
          then None
          else Some (client.selectHeaderContentType a ["application/json"]))
    else None.
Proof.
  unfold client.localVarHeaderParams. cbv zeta.
  repeat case_bool_decide; subst; simplify_map_eq; solve [reflexivity | congruence].
Qed.

(** X15. The first step that fails ends [NetworkStatus] with its error as
    the only result: a failed [prepareRequest] before any call of the API;
    an error of [callAPI] without reading or closing a body, even when a
    response came with it; a failed read of the body after closing it,
    without any [decode]. *)
Theorem NetworkStatus_first_error
    (a : client.APIClient) (ctx : client.Context a)
    (networkStatusRequest : option (client.NetworkStatusRequest a)) :
  let prepared :=
    client.prepareRequest a ctx (client.localVarPath a) networkStatusRequest
      (client.localVarHeaderParams a) in
  let prepare :=
    client.PrepareRequest (client.localVarPath a) (client.localVarHeaderParams a) in
  (forall e,
     prepared = inr e ->
     client.NetworkStatus a ctx networkStatusRequest
     = ((None, None, Some e), [prepare]))
  /\ (forall r response e,
        prepared = inl r ->
        client.callAPI a ctx r = (response, Some e) ->
        client.NetworkStatus a ctx networkStatusRequest
        = ((None, None, Some e), [prepare; client.CallAPI]))
  /\ (forall r response body e,
        prepared = inl r ->
        client.callAPI a ctx r = (Some response, None) ->
        client.Body response = (body, Some e) ->
        client.NetworkStatus a ctx networkStatusRequest
        = ((None, None, Some e),
           [prepare; client.CallAPI; client.ReadAll; client.BodyClose])).
Proof.
  unfold client.NetworkStatus. repeat split.
  - intros e ->. reflexivity.
  - intros r response e -> ->. destruct response; reflexivity.
  - intros r response body e -> -> ->. reflexivity.
Qed.

(** A connection that fails, without and with a response beside the
    error, and a response whose body cannot be read. *)
Lemma NetworkStatus_first_error_witness :
  (client.NetworkStatus client_scenarios.unreachableNode tt None).1
  = (None, None, Some (errors.New "dial tcp: connection refused"))
  /\ (client.NetworkStatus
        (client_scenarios.answering
           (Some client_scenarios.ok, Some (errors.New "stopped after 10 redirects")))
        tt None).2
     = [client.PrepareRequest "http://localhost:8080/network/status"
          (client.localVarHeaderParams client_scenarios.unreachableNode);
        client.CallAPI]
  /\ (client.NetworkStatus
        (client_scenarios.answering
           (Some {| client.StatusCode := 200;
                    client.Header := client_scenarios.jsonHeader;
                    client.Body := ("{", Some (errors.New "unexpected EOF")) |},
            None))
        tt None)
     = ((None, None, Some (errors.New "unexpected EOF")),
        [client.PrepareRequest "http://localhost:8080/network/status"
           (client.localVarHeaderParams client_scenarios.unreachableNode);
         client.CallAPI; client.ReadAll; client.BodyClose]).
Proof.
  split; [ | split].
  - destruct (NetworkStatus_first_error client_scenarios.unreachableNode tt None)
      as (_ & Hcall & _).
    exact (f_equal fst (Hcall "http://localhost:8080/network/status" None _
                          eq_refl eq_refl)).
  - destruct (NetworkStatus_first_error
                (client_scenarios.answering
                   (Some client_scenarios.ok,
                    Some (errors.New "stopped after 10 redirects"))) tt None)
      as (_ & Hcall & _).
    exact (f_equal snd (Hcall "http://localhost:8080/network/status"
                          (Some client_scenarios.ok) _ eq_refl eq_refl)).
  - destruct (NetworkStatus_first_error
                (client_scenarios.answering
                   (Some {| client.StatusCode := 200;
                            client.Header := client_scenarios.jsonHeader;
                            client.Body := ("{", Some (errors.New "unexpected EOF")) |},
                    None)) tt None)
      as (_ & _ & Hread).
    exact (Hread "http://localhost:8080/network/status" _ "{" _
             eq_refl eq_refl eq_refl).
Defined.

(** X16. Cancellation is looked for only at the top of a turn. After a
    failed attempt [tryAgain] is asked without another look at the
    context; when it grants the retry and the context is then found
    cancelled, the call makes no further transport call and returns
    "exhausted retries for account". *)
Theorem AccountBalanceRetry_cancelled_after_retry_granted
    (E : fetcher.Env) (fuel : nat)
    (network : option types.NetworkIdentifier.t) (a : types.AccountIdentifier.t)
    (maxElapsedTime maxRetries : Z) (tr : list fetcher.event)
    (e cancelled : go.error) :
  fetcher.ctx_Err E (List.length tr) = None ->
  fetcher_turns.attemptFails E (S (List.length tr))
    (fetcher_turns.request network (Some a)) e ->
  (fetcher.tryAgain E (S (S (List.length tr))) (fetcher_turns.fetchMsg a)
     (fetcher.backoffRetries E maxElapsedTime maxRetries) e).1 = true ->
  fetcher.ctx_Err E (S (S (S (List.length tr)))) = Some cancelled ->
  fetcher.AccountBalanceRetry E (S (S fuel)) network (Some a)
    maxElapsedTime maxRetries tr
  = Some (fetcher.Returns fetcher.exhausted,
          (tr ++ [fetcher.CtxErr;
                  fetcher.TransportCall (fetcher_turns.request network (Some a));
                  fetcher.TryAgain (fetcher_turns.fetchMsg a) e;
                  fetcher.CtxErr])%list).
Proof.
  intros Hc Hatt Hgranted Hcancelled.
  unfold fetcher.AccountBalanceRetry. rewrite loop_turn.
  pose proof (body_turn E network (Some a)
                (fetcher.backoffRetries E maxElapsedTime maxRetries) tr) as Hturn.
  destruct (turn_of_failure _ _ _ _ _ _ _ _ Hc Hatt Hturn) as [-> ->].
  rewrite Hgranted. simpl.
  rewrite (fetcher_facts.body_cancelled E network (Some a) _ _ cancelled).
  - unfold fetcher_turns.round. rewrite <- app_assoc. reflexivity.
  - rewrite length_app. simpl. rewrite <- Hcancelled. f_equal. lia.
Qed.

(** The refusing node, one retry allowed, and a context that is cancelled
    while the back-off waits. *)
Lemma AccountBalanceRetry_cancelled_after_retry_granted_witness :
  fetcher.AccountBalanceRetry
    {| fetcher.BackOff := nat;
       fetcher.backoffRetries := fun _ maxRetries => Z.to_nat maxRetries;
       fetcher.tryAgain := fetcher_scenarios.countingTryAgain;
       fetcher.ctx_Err := fun t => if (t <? 3)%nat
                                   then None
                                   else Some (errors.New "context canceled");
       fetcher.AccountAPI_AccountBalance := fetcher_scenarios.refusing |}
    2 fetcher_scenarios.network (Some fetcher_scenarios.acct1) 0 1 []
  = Some (fetcher.Returns fetcher.exhausted,
          [fetcher.CtxErr;
           fetcher.TransportCall
             (fetcher_turns.request fetcher_scenarios.network
                (Some fetcher_scenarios.acct1));
           fetcher.TryAgain "account acct1" fetcher_scenarios.refused;
           fetcher.CtxErr]).
Proof.
  exact (AccountBalanceRetry_cancelled_after_retry_granted
           {| fetcher.BackOff := nat;
              fetcher.backoffRetries := fun _ maxRetries => Z.to_nat maxRetries;
              fetcher.tryAgain := fetcher_scenarios.countingTryAgain;
              fetcher.ctx_Err := fun t => if (t <? 3)%nat
                                          then None
                                          else Some (errors.New "context canceled");
              fetcher.AccountAPI_AccountBalance := fetcher_scenarios.refusing |}
           0 fetcher_scenarios.network fetcher_scenarios.acct1 0 1 []
           fetcher_scenarios.refused (errors.New "context canceled")
           eq_refl eq_refl eq_refl eq_refl).
Defined.
